(** * GitHub OAuth relay for Decap CMS: the authorization flow

    A shallow embedding of the callback side of the relay:
    - [src/config.ts]        ([getConfigValue], [config]),
    - [src/utils/oauth.ts]   ([getToken]),
    - [src/utils/github.ts]  ([getGitHubUser], [verifyUserPermission]),
    - [src/routes/callback.ts] (the [GET /callback] handler),
    together with the two encoders the handler builds its redirect with
    ([encodeURIComponent] and [URLSearchParams.prototype.toString]), and of
    what surrounds it: the entry route ([src/routes/auth.ts]), the two
    terminal routes ([src/routes/success.ts], [src/routes/error.ts]), the
    CORS plugin ([src/middleware/cors.ts]) and the script of the success page
    ([src/views/success.html]).

    Strings are byte strings (the UTF-8 form of the JavaScript string), so
    the encoders work byte by byte as the standards prescribe for well-formed
    text.  Asynchronous calls are sequential in the source ([await] on every
    one), so a handler is a computation that emits an ordered trace of
    events and either completes or throws. *)

From Stdlib Require Import String Ascii List ZArith NArith Bool Lia.
From stdpp Require Import base strings gmap pretty.
Import ListNotations.
Open Scope string_scope.

(** ** JavaScript strings and optional strings *)

Module Js.

(** A value of type [string | undefined]; [None] is [undefined].  Truthiness
    is what [if (x)], [!x] and [x || y] test: a non-empty string. *)
Definition truthy (o : option string) : bool :=
  match o with
  | Some s => negb (String.eqb s "")
  | None => false
  end.

(** [x || d] for [x : string | undefined] and a string [d]. *)
Definition or_else (o : option string) (d : string) : string :=
  match o with
  | Some s => if String.eqb s "" then d else s
  | None => d
  end.

(** [`${x}`] in a template literal. *)
Definition tmpl (o : option string) : string :=
  match o with
  | Some s => s
  | None => "undefined"
  end.

(** [a !== b] where [a : string | null] and [b : string | undefined]: the
    two absent values are different values, so only two equal strings are
    strictly equal. *)
Definition strict_neq (a b : option string) : bool :=
  match a, b with
  | Some x, Some y => negb (String.eqb x y)
  | _, _ => true
  end.

(** [s.includes(search)]. *)
Fixpoint includes (s search : string) : bool :=
  String.prefix search s
  || match s with
     | EmptyString => false
     | String _ t => includes t search
     end.

(** [s.split(sep)] for a one-character separator. *)
Fixpoint split (sep : ascii) (s : string) : list string :=
  match s with
  | EmptyString => [""]
  | String c t =>
      if Ascii.eqb c sep then "" :: split sep t
      else match split sep t with
           | x :: r => String c x :: r
           | [] => [String c ""]
           end
  end.

(** [arr.includes(x)] on an array of strings. *)
Definition array_includes (arr : list string) (x : string) : bool :=
  existsb (String.eqb x) arr.

End Js.

(** ** Percent encoding *)

Module Url.

Definition in_range (lo hi : N) (c : ascii) : bool :=
  (lo <=? N_of_ascii c)%N && (N_of_ascii c <=? hi)%N.

Definition is_alnum (c : ascii) : bool :=
  in_range 48 57 c || in_range 65 90 c || in_range 97 122 c.

Definition one_of (cs : string) (c : ascii) : bool :=
  existsb (Ascii.eqb c) (list_ascii_of_string cs).

Definition hex_digit (n : N) : ascii :=
  match n with
  | 0 => "0" | 1 => "1" | 2 => "2" | 3 => "3" | 4 => "4" | 5 => "5"
  | 6 => "6" | 7 => "7" | 8 => "8" | 9 => "9" | 10 => "A" | 11 => "B"
  | 12 => "C" | 13 => "D" | 14 => "E" | _ => "F"
  end%N%char.

(** [%XX] with upper-case hexadecimal digits. *)
Definition percent_byte (c : ascii) : string :=
  String "%" (String (hex_digit (N_of_ascii c / 16))
             (String (hex_digit (N_of_ascii c mod 16)) "")).

Definition encode_byte (keep : ascii -> bool) (special : ascii -> option string)
    (c : ascii) : string :=
  match special c with
  | Some r => r
  | None => if keep c then String c "" else percent_byte c
  end.

Fixpoint encode_with (keep : ascii -> bool) (special : ascii -> option string)
    (s : string) : string :=
  match s with
  | EmptyString => ""
  | String c t => encode_byte keep special c ++ encode_with keep special t
  end.

(** ECMAScript [encodeURIComponent]: everything but letters, digits and
    [- _ . ! ~ * ' ( )] is escaped. *)
Definition uri_unreserved (c : ascii) : bool :=
  is_alnum c || one_of "-_.!~*'()" c.

Definition encodeURIComponent (s : string) : string :=
  encode_with uri_unreserved (fun _ => None) s.

(** The [application/x-www-form-urlencoded] serializer behind
    [URLSearchParams.prototype.toString]: letters, digits and [* - . _] are
    kept, a space becomes [+], everything else is escaped. *)
Definition form_unreserved (c : ascii) : bool :=
  is_alnum c || one_of "*-._" c.

Definition form_special (c : ascii) : option string :=
  if Ascii.eqb c " " then Some "+" else None.

Definition form_encode (s : string) : string :=
  encode_with form_unreserved form_special s.

Definition form_pair (kv : string * string) : string :=
  form_encode (fst kv) ++ "=" ++ form_encode (snd kv).

(** [new URLSearchParams({k1: v1, ...}).toString()], the object given as the
    list of its entries in insertion order. *)
Fixpoint URLSearchParams_toString (params : list (string * string)) : string :=
  match params with
  | [] => ""
  | [kv] => form_pair kv
  | kv :: rest => form_pair kv ++ "&" ++ URLSearchParams_toString rest
  end.

(** *** Decoding, as the terminal pages read the redirect

    [success.html] reads its parameters with
    [new URLSearchParams(window.location.search).get(name)]; the error route
    applies [decodeURIComponent] to the message.  Byte strings stand for
    well-formed text here, so the decoders' UTF-8 validation has nothing to
    reject and is left out. *)

Definition hex_value (c : ascii) : option N :=
  if in_range 48 57 c then Some (N_of_ascii c - 48)%N
  else if in_range 65 70 c then Some (N_of_ascii c - 55)%N
  else if in_range 97 102 c then Some (N_of_ascii c - 87)%N
  else None.

(** ECMAScript [decodeURIComponent]; [None] is a thrown [URIError]. *)
Fixpoint decodeURIComponent (s : string) : option string :=
  match s with
  | EmptyString => Some ""
  | String c t =>
      if Ascii.eqb c "%" then
        match t with
        | String h (String l t') =>
            match hex_value h, hex_value l with
            | Some a, Some b =>
                option_map (String (ascii_of_N (16 * a + b))) (decodeURIComponent t')
            | _, _ => None
            end
        | _ => None
        end
      else option_map (String c) (decodeURIComponent t)
  end.

(** The form parser's decoding of a name or a value: [+] is a space, a
    well-formed escape is its byte, anything else stands for itself. *)
Fixpoint form_decode (s : string) : string :=
  match s with
  | EmptyString => ""
  | String c t =>
      if Ascii.eqb c "+" then String " " (form_decode t)
      else if Ascii.eqb c "%" then
        match t with
        | String h (String l t') =>
            match hex_value h, hex_value l with
            | Some a, Some b => String (ascii_of_N (16 * a + b)) (form_decode t')
            | _, _ => String c (form_decode t)
            end
        | _ => String c (form_decode t)
        end
      else String c (form_decode t)
  end.

(** The text before the first [sep] and, when there is one, the text after
    it. *)
Fixpoint cut (sep : ascii) (s : string) : string * option string :=
  match s with
  | EmptyString => ("", None)
  | String c t =>
      if Ascii.eqb c sep then ("", Some t)
      else let '(a, b) := cut sep t in (String c a, b)
  end.

Definition parse_pair (piece : string) : string * string :=
  let '(name, v) := cut "=" piece in
  (form_decode name, form_decode (match v with Some x => x | None => "" end)).

(** [new URLSearchParams(search)]: the entries of a query string, a leading
    [?] dropped. *)
Definition URLSearchParams_parse (search : string) : list (string * string) :=
  let q := match search with
           | String c t => if Ascii.eqb c "?" then t else search
           | EmptyString => search
           end in
  map parse_pair
      (List.filter (fun piece => negb (String.eqb piece "")) (Js.split "&" q)).

(** [params.get(name)]: the first value under [name]. *)
Fixpoint entries_get (name : string) (entries : list (string * string)) : option string :=
  match entries with
  | [] => None
  | (k, v) :: rest => if String.eqb k name then Some v else entries_get name rest
  end.

(** [window.location.search] of the page a [Location] leads to: from the
    first [?] on. *)
Definition location_search (location : string) : string :=
  match cut "?" location with
  | (_, Some q) => String "?" q
  | (_, None) => ""
  end.

Definition location_path (location : string) : string := fst (cut "?" location).

(** [s] has no occurrence of [sep]. *)
Fixpoint free_of (sep : ascii) (s : string) : bool :=
  match s with
  | EmptyString => true
  | String c t => negb (Ascii.eqb c sep) && free_of sep t
  end.

Definition location_param (name location : string) : option string :=
  entries_get name (URLSearchParams_parse (location_search location)).

End Url.

(** ** Thrown values, events and the handler monad *)

(** What a [catch (error: unknown)] clause can tell apart. *)
Inductive Thrown : Type :=
| ThrownError (message : string)          (* [error instanceof Error] *)
| ThrownString (s : string)               (* [typeof error === "string"] *)
| ThrownObject (message : option string)  (* another object; [Some m] when it
                                             has a string [message] *)
| ThrownOther.

Inductive Completion (A : Type) : Type :=
| Normal (a : A)
| Throw (e : Thrown).
Arguments Normal {A} a.
Arguments Throw {A} e.

Inductive Level : Type := LInfo | LWarn | LError.

Inductive LogVal : Type :=
| LStr (s : string)
| LNum (z : Z)
| LBool (b : bool)
| LThrown (e : Thrown)
| LStack.                                 (* [err.stack], runtime text *)

Module TokenParams.
Record t : Type := { code : string; redirect_uri : string; scope : string }.
End TokenParams.

Inductive Event : Type :=
| Log (lvl : Level) (fields : list (string * LogVal)) (msg : string)
| ConsoleError (args : list LogVal)
| TokenRequest (params : TokenParams.t)
| FetchRequest (url : string) (headers : list (string * string))
| ClearCookie (name path : string)
| Redirect (url : string).

(** A computation: the events it emitted, in order, and how it ended. *)
Definition M (A : Type) : Type := (list Event * Completion A)%type.

Definition ret {A} (a : A) : M A := ([], Normal a).

Definition bind {A B} (m : M A) (k : A -> M B) : M B :=
  match m with
  | (t, Normal a) => let '(t', r) := k a in ((t ++ t')%list, r)
  | (t, Throw e) => (t, Throw e)
  end.

Definition throw {A} (e : Thrown) : M A := ([], Throw e).

Definition emit (ev : Event) : M unit := ([ev], Normal tt).

(** [try { body } catch (error) { handler }] *)
Definition try_catch {A} (body : M A) (handler : Thrown -> M A) : M A :=
  match body with
  | (t, Normal a) => (t, Normal a)
  | (t, Throw e) => let '(t', r) := handler e in ((t ++ t')%list, r)
  end.

Definition lift {A} (c : Completion A) : M A := ([], c).

Notation "'let*' x ':=' m 'in' k" := (bind m (fun x => k))
  (at level 10, x name, m at level 100, k at level 200).
Notation "m ';;' k" := (bind m (fun _ => k))
  (at level 100, k at level 200, right associativity).

Definition trace {A} (m : M A) : list Event := fst m.
Definition outcome {A} (m : M A) : Completion A := snd m.

Definition log (lvl : Level) (fields : list (string * LogVal)) (msg : string) : M unit :=
  emit (Log lvl fields msg).

(** ** The outside world

    Everything the handlers obtain from a library or from the provider. *)

(** The object [request.unsignCookie] returns (@fastify/cookie); [value] is
    [null] when the signature does not verify. *)
Record UnsignResult : Type := { valid : bool; renew : bool; value : option string }.

(** [accessToken.token.access_token] as [typeof] sees it. *)
Inductive AccessTokenField : Type :=
| TokenString (s : string)
| TokenNotString.

(** [oauthClient.getToken] (simple-oauth2) resolves with a token object, or
    rejects: on a non-success answer of the token endpoint and on a network
    failure alike. *)
Inductive TokenOutcome : Type :=
| TokenResolved (access_token : AccessTokenField)
| TokenRejected (e : Thrown).

Record Response : Type := { status : Z; text : string }.

(** [response.ok] *)
Definition ok (r : Response) : bool := (200 <=? status r)%Z && (status r <=? 299)%Z.

Inductive FetchOutcome : Type :=
| FetchResolved (r : Response)
| FetchRejected (e : Thrown).

(** [interface GitHubUserProfile] (and [GitHubUser], which has the same
    shape). *)
Record GitHubUser : Type := { login : string; user_id : Z }.

(** [interface GitHubUserPermission]; [permission] is any string the
    provider sends (the handler itself tests for ["maintain"], which the
    declared union omits). *)
Record GitHubUserPermission : Type :=
  { permission : string; role_name : string; user : GitHubUser }.

Record World : Type := {
  unsignCookie : string -> UnsignResult;
  oauthClient_getToken : TokenParams.t -> TokenOutcome;
  fetch : string -> list (string * string) -> FetchOutcome;
  (** [(await response.json()) as T] on a body: it throws on malformed
      JSON, and so does the first field access on [null]. *)
  json_profile : string -> Completion GitHubUser;
  json_permission : string -> Completion GitHubUserPermission;
  (** [parseInt(s, 10)]; [None] is [NaN]. *)
  parseInt10 : string -> option Z
}.

(** ** src/config.ts *)

Record GithubConfig : Type := {
  clientId : string;
  clientSecret : string;
  callbackUrl : string;
  scope : string;
  repo : string
}.

Record RateLimitConfig : Type := { requests : option Z; windowMinutes : option Z }.

Record Config : Type := {
  nodeEnv : string;
  port : option Z;
  host : string;
  github : GithubConfig;
  frontendUrl : string;
  sessionSecret : string;
  rateLimit : RateLimitConfig;
  logLevel : string
}.

(** [process.env] once dotenv has run. *)
Definition getConfigValue (env : gmap string string) (key : string)
    (defaultValue : option string) : M string :=
  let value := env !! key in
  if Js.truthy value then ret (Js.tmpl value)
  else match defaultValue with
       | Some d => ret d
       | None =>
           throw (ThrownError ("Missing environment variable: " ++ key
                               ++ " and no default value provided."))
       end.

(** The module-level [export const config = {...}]: the fields are
    evaluated in source order, at import time. *)
Definition config (w : World) (env : gmap string string) : M Config :=
  let* nodeEnv_ := getConfigValue env "NODE_ENV" (Some "development") in
  let* port_ := getConfigValue env "PORT" (Some "3000") in
  let* host_ := getConfigValue env "HOST" (Some "0.0.0.0") in
  let* clientId_ := getConfigValue env "GITHUB_CLIENT_ID" None in
  let* clientSecret_ := getConfigValue env "GITHUB_CLIENT_SECRET" None in
  let* callbackUrl_ := getConfigValue env "GITHUB_CALLBACK_URL" None in
  let* scope_ := getConfigValue env "GITHUB_SCOPE" (Some "repo") in
  let* repo_ := getConfigValue env "GITHUB_REPO" None in
  let* frontendUrl_ := getConfigValue env "FRONTEND_URL" None in
  let* sessionSecret_ :=
    getConfigValue env "SESSION_SECRET"
      (Some "a_very_strong_secret_key_that_should_be_changed") in
  let* requests_ := getConfigValue env "RATE_LIMIT_REQUESTS" (Some "100") in
  let* windowMinutes_ := getConfigValue env "RATE_LIMIT_WINDOW_MINUTES" (Some "60") in
  let* logLevel_ := getConfigValue env "LOG_LEVEL" (Some "info") in
  ret {| nodeEnv := nodeEnv_;
         port := parseInt10 w port_;
         host := host_;
         github := {| clientId := clientId_;
                      clientSecret := clientSecret_;
                      callbackUrl := callbackUrl_;
                      scope := scope_;
                      repo := repo_ |};
         frontendUrl := frontendUrl_;
         sessionSecret := sessionSecret_;
         rateLimit := {| requests := parseInt10 w requests_;
                         windowMinutes := parseInt10 w windowMinutes_ |};
         logLevel := logLevel_ |}.

(** ** The request the callback route receives *)

(** [interface CallbackQuery], already decoded by the server's query
    parser. *)
Record CallbackQuery : Type := {
  code : option string;
  state : option string;
  error : option string;
  error_description : option string
}.

Record Request : Type := {
  query : CallbackQuery;
  cookies_oauth_state : option string     (* [request.cookies.oauth_state] *)
}.

Section Flow.

Variable w : World.
Variable cfg : Config.

(** *** Provider calls: each one is recorded, then answered by the world *)

Definition await_oauthClient_getToken (tokenParams : TokenParams.t) : M AccessTokenField :=
  emit (TokenRequest tokenParams) ;;
  match oauthClient_getToken w tokenParams with
  | TokenResolved access_token => ret access_token
  | TokenRejected e => throw e
  end.

Definition await_fetch (url : string) (headers : list (string * string)) : M Response :=
  emit (FetchRequest url headers) ;;
  match fetch w url headers with
  | FetchResolved r => ret r
  | FetchRejected e => throw e
  end.

Definition github_headers (accessToken : string) : list (string * string) :=
  [("Authorization", "token " ++ accessToken);
   ("Accept", "application/vnd.github.v3+json");
   ("User-Agent", "DecapCMS-GitHub-OAuth-App")].

(** *** src/utils/oauth.ts *)

Definition getToken (code : string) : M string :=
  let tokenParams :=
    {| TokenParams.code := code;
       TokenParams.redirect_uri := callbackUrl (github cfg);
       TokenParams.scope := scope (github cfg) |} in
  try_catch
    (let* access_token := await_oauthClient_getToken tokenParams in
     match access_token with
     | TokenString s => ret s
     | TokenNotString =>
         throw (ThrownError
           "Access token received from GitHub is not in the expected string format.")
     end)
    (fun error =>
       let message :=
         match error with
         | ThrownError m => m
         | ThrownString s => s
         | ThrownObject (Some m) => m
         | _ => "Unknown error during token exchange"
         end in
       emit (ConsoleError [LStr "Access Token Error Details:"; LStr message; LThrown error]) ;;
       throw (ThrownError ("Failed to obtain access token from GitHub: " ++ message))).

(** *** src/utils/github.ts *)

Definition getGitHubUser (accessToken : string) : M (option GitHubUser) :=
  let url := "https://api.github.com/user" in
  try_catch
    (let* response := await_fetch url (github_headers accessToken) in
     if negb (ok response) then
       log LError [("status", LNum (status response)); ("url", LStr url);
                   ("errorBody", LStr (text response))]
           "GitHub API error fetching user profile" ;;
       ret None
     else
       let* userProfile := lift (json_profile w (text response)) in
       log LInfo [("userId", LNum (user_id userProfile)); ("login", LStr (login userProfile))]
           "Successfully fetched GitHub user profile" ;;
       ret (Some userProfile))
    (fun error =>
       let message :=
         match error with
         | ThrownError m => m
         | ThrownString s => s
         | _ => "Unknown error during user profile fetch"
         end in
       log LError [("error", LStr message)] "Error fetching GitHub user profile" ;;
       ret None).

Definition permission_url (owner repoName : option string) (username : string) : string :=
  "https://api.github.com/repos/" ++ Js.tmpl owner ++ "/" ++ Js.tmpl repoName
  ++ "/collaborators/" ++ username ++ "/permission".

Definition verifyUserPermission (accessToken username : string) : M bool :=
  let repo := repo (github cfg) in
  if negb (Js.includes repo "/") then
    throw (ThrownError "Invalid GITHUB_REPO format. Expected owner/repo.")
  else
    let parts := Js.split "/" repo in
    let owner := parts !! 0%nat in
    let repoName := parts !! 1%nat in
    let url := permission_url owner repoName username in
    try_catch
      (let* response := await_fetch url (github_headers accessToken) in
       if negb (ok response) then
         log LError [("status", LNum (status response)); ("url", LStr url);
                     ("errorBody", LStr (text response)); ("username", LStr username)]
             ("GitHub API error checking permission for user " ++ username
              ++ " on repo " ++ Js.tmpl owner ++ "/" ++ Js.tmpl repoName) ;;
         if (status response =? 404)%Z then ret false
         else throw (ThrownError ("Failed to verify user permission. Status: "
                                  ++ pretty (status response)))
       else
         let* data := lift (json_permission w (text response)) in
         let hasWritePermission :=
           Js.array_includes ["admin"; "write"; "maintain"] (permission data) in
         log LInfo [("username", LStr username);
                    ("repo", LStr (Js.tmpl owner ++ "/" ++ Js.tmpl repoName));
                    ("permission", LStr (permission data));
                    ("hasWritePermission", LBool hasWritePermission)]
             ("User permission check result for " ++ username) ;;
         ret hasWritePermission)
      (fun error =>
         let message :=
           match error with
           | ThrownError m => m
           | ThrownString s => s
           | _ => "Unknown error during permission verification"
           end in
         log LError [("error", LStr message); ("username", LStr username);
                     ("repo", LStr (Js.tmpl owner ++ "/" ++ Js.tmpl repoName))]
             "Error verifying GitHub user permission" ;;
         ret false).

(** *** src/routes/callback.ts *)

(** [`/error?${new URLSearchParams({error: encodeURIComponent(message),
    origin: config.frontendUrl})}`] *)
Definition error_location (message : string) : string :=
  "/error?" ++ Url.URLSearchParams_toString
                 [("error", Url.encodeURIComponent message); ("origin", frontendUrl cfg)].

Definition success_location (accessToken : string) : string :=
  "/success?" ++ Url.URLSearchParams_toString
                   [("token", accessToken); ("origin", frontendUrl cfg)].

(** The guard of the first [if]; [!cookieState] is left out, the result of
    [unsignCookie] being an object. *)
Definition csrf_rejected (cookieState : UnsignResult) (queryState : option string) : bool :=
  negb (Js.truthy queryState)
  || negb (valid cookieState)
  || Js.strict_neq (value cookieState) queryState.

Definition callbackRoutes (request : Request) : M unit :=
  let queryState := state (query request) in
  let cookieState := unsignCookie w (Js.or_else (cookies_oauth_state request) "") in
  emit (ClearCookie "oauth_state" "/") ;;
  if csrf_rejected cookieState queryState then
    log LWarn [] "Invalid OAuth state parameter or cookie mismatch. Potential CSRF attack." ;;
    let errorMessage :=
      if negb (valid cookieState) then "Invalid state cookie signature."
      else "State parameter mismatch or missing." in
    emit (Redirect (error_location ("CSRF validation failed: " ++ errorMessage)))
  else
    log LInfo [] "OAuth state validated successfully." ;;
    if Js.truthy (error (query request)) then
      log LError [] ("OAuth Error from GitHub: " ++ Js.tmpl (error (query request))
                     ++ " - " ++ Js.tmpl (error_description (query request))) ;;
      emit (Redirect (error_location
              (Js.or_else (error_description (query request))
                          "An error occurred during GitHub authentication.")))
    else if negb (Js.truthy (code (query request))) then
      log LError [] "No authorization code received from GitHub." ;;
      emit (Redirect (error_location "Authorization code missing from GitHub callback."))
    else
      try_catch
        (log LInfo [] "Exchanging authorization code for access token..." ;;
         let* accessToken := getToken (Js.tmpl (code (query request))) in
         log LInfo [] "Access token obtained successfully." ;;
         let* githubUser := getGitHubUser accessToken in
         match githubUser with
         | None =>
             log LError [] "Failed to fetch GitHub user profile." ;;
             emit (Redirect (error_location "Failed to fetch user profile from GitHub."))
         | Some githubUser =>
             log LInfo [] ("GitHub user profile fetched: " ++ login githubUser) ;;
             log LInfo [] ("Verifying repository permissions for user: " ++ login githubUser
                           ++ " on repo: " ++ repo (github cfg)) ;;
             let* hasPermission := verifyUserPermission accessToken (login githubUser) in
             if hasPermission then
               log LInfo [] ("User " ++ login githubUser ++ " has sufficient permissions for "
                             ++ repo (github cfg) ++ ".") ;;
               emit (Redirect (success_location accessToken))
             else
               log LWarn [] ("User " ++ login githubUser
                             ++ " does NOT have sufficient permissions for "
                             ++ repo (github cfg) ++ ".") ;;
               emit (Redirect (error_location
                 "Access Denied: You do not have sufficient permissions for the configured repository."))
         end)
        (fun err =>
           let callbackErrorMessage :=
             "An internal error occurred during callback processing." in
           match err with
           | ThrownError m =>
               log LError [("error", LStr m); ("stack", LStack)]
                   "Error in /callback route processing"
           | _ =>
               log LError [("error", LThrown err)]
                   "An unknown error occurred in /callback route processing"
           end ;;
           emit (Redirect (error_location callbackErrorMessage))).

End Flow.

(** ** A concrete deployment, used to run the handlers *)

Module Scenario.

(** One state value was issued and signed; every other cookie text, the
    empty one included, fails verification. *)
Definition unsign (signed : string) : UnsignResult :=
  if String.eqb signed "5f3a9c01.c2lnbmF0dXJl"
  then {| valid := true; renew := false; value := Some "5f3a9c01" |}
  else {| valid := false; renew := false; value := None |}.

Definition parse_decimal (s : string) : option Z :=
  if String.eqb s "3000" then Some 3000%Z
  else if String.eqb s "100" then Some 100%Z
  else if String.eqb s "60" then Some 60%Z
  else None.

Definition octocat : GitHubUser := {| login := "octocat"; user_id := 583231 |}.

Definition profile_of (body : string) : Completion GitHubUser :=
  if String.eqb body "profile:octocat" then Normal octocat
  else Throw (ThrownError "Unexpected end of JSON input").

Definition permission_of (body : string) : Completion GitHubUserPermission :=
  if String.prefix "permission:" body
  then Normal {| permission := substring 11 (String.length body - 11) body;
                 role_name := substring 11 (String.length body - 11) body;
                 user := octocat |}
  else Throw (ThrownError "Unexpected end of JSON input").

(** The provider answers the three calls with [tok], [userResp] and
    [permResp]. *)
Definition world (tok : TokenOutcome) (userResp permResp : FetchOutcome) : World :=
  {| unsignCookie := unsign;
     oauthClient_getToken := fun _ => tok;
     fetch := fun url _ =>
       if String.eqb url "https://api.github.com/user" then userResp else permResp;
     json_profile := profile_of;
     json_permission := permission_of;
     parseInt10 := parse_decimal |}.

Definition env_with_repo (r : string) : gmap string string :=
  list_to_map
    [("GITHUB_CLIENT_ID", "Iv1.0a1b2c"); ("GITHUB_CLIENT_SECRET", "s3cr3t");
     ("GITHUB_CALLBACK_URL", "https://auth.example/callback");
     ("GITHUB_REPO", r); ("FRONTEND_URL", "https://cms.example")].

Definition cfg_with_repo (r : string) : Config :=
  {| nodeEnv := "development";
     port := Some 3000%Z;
     host := "0.0.0.0";
     github := {| clientId := "Iv1.0a1b2c";
                  clientSecret := "s3cr3t";
                  callbackUrl := "https://auth.example/callback";
                  scope := "repo";
                  repo := r |};
     frontendUrl := "https://cms.example";
     sessionSecret := "a_very_strong_secret_key_that_should_be_changed";
     rateLimit := {| requests := Some 100%Z; windowMinutes := Some 60%Z |};
     logLevel := "info" |}.

Definition cfg : Config := cfg_with_repo "octo/site".

Definition token_ok : TokenOutcome := TokenResolved (TokenString "gho_T0k3n").
Definition user_ok : FetchOutcome :=
  FetchResolved {| status := 200; text := "profile:octocat" |}.
Definition perm (st : Z) (body : string) : FetchOutcome :=
  FetchResolved {| status := st; text := body |}.

Definition request (cookie : option string) (c st e d : option string) : Request :=
  {| query := {| code := c; state := st; error := e; error_description := d |};
     cookies_oauth_state := cookie |}.

(** A callback that passes state validation and carries a code. *)
Definition good_request : Request :=
  request (Some "5f3a9c01.c2lnbmF0dXJl") (Some "abc123") (Some "5f3a9c01") None None.

(** The same callback without the cookie, with a cookie whose signature
    does not verify, and with a state other than the signed one. *)
Definition no_cookie_request : Request :=
  request None (Some "abc123") (Some "5f3a9c01") None None.
Definition forged_request : Request :=
  request (Some "5f3a9c01.Zm9yZ2Vk") (Some "abc123") (Some "5f3a9c01") None None.
Definition mismatch_request : Request :=
  request (Some "5f3a9c01.c2lnbmF0dXJl") (Some "abc123") (Some "0badc0de") None None.

(** A second callback that presents the cookie and the state of
    [good_request] once more, with another code: a client that kept the
    signed cookie instead of dropping it. *)
Definition replayed_request : Request :=
  request (Some "5f3a9c01.c2lnbmF0dXJl") (Some "def456") (Some "5f3a9c01") None None.

(** The provider reports that the user refused; no code comes with it. *)
Definition denied_request : Request :=
  request (Some "5f3a9c01.c2lnbmF0dXJl") None (Some "5f3a9c01")
          (Some "access_denied") (Some "User denied").

(** All three provider calls succeed and the user may write. *)
Definition w_write : World := world token_ok user_ok (perm 200 "permission:write").

(** The permission endpoint answers 500. *)
Definition w_500 : World := world token_ok user_ok (perm 500 "Internal Server Error").

(** The token endpoint answers 401, which the OAuth client turns into a
    rejection. *)
Definition w_token_401 : World :=
  world (TokenRejected (ThrownError "Response Error: 401 Unauthorized"))
        user_ok (perm 200 "permission:write").

End Scenario.

(** ** Observations on a trace *)

(** The [Location]s of the redirects a handler answered with. *)
Fixpoint redirects (t : list Event) : list string :=
  match t with
  | [] => []
  | Redirect u :: r => u :: redirects r
  | _ :: r => redirects r
  end.

(** The requests sent to the provider. *)
Fixpoint provider_calls (t : list Event) : list Event :=
  match t with
  | [] => []
  | TokenRequest p :: r => TokenRequest p :: provider_calls r
  | FetchRequest u h :: r => FetchRequest u h :: provider_calls r
  | _ :: r => provider_calls r
  end.

(** The [oauth_state] cookie a user agent holds after it has processed the
    cookie directives of a response. *)
Definition jar_after (jar : option string) (t : list Event) : option string :=
  fold_left
    (fun j ev =>
       match ev with
       | ClearCookie name _ => if String.eqb name "oauth_state" then None else j
       | _ => j
       end)
    t jar.

(** The cookie state the callback computes for a request, and the two
    things the rejecting branch builds from it. *)
Definition cookieState_of (w : World) (request : Request) : UnsignResult :=
  unsignCookie w (Js.or_else (cookies_oauth_state request) "").

Definition csrf_message (cookieState : UnsignResult) : string :=
  "CSRF validation failed: "
  ++ (if valid cookieState then "State parameter mismatch or missing."
      else "Invalid state cookie signature.").

Definition csrf_failure_trace (cfg : Config) (cookieState : UnsignResult) : list Event :=
  [ClearCookie "oauth_state" "/";
   Log LWarn [] "Invalid OAuth state parameter or cookie mismatch. Potential CSRF attack.";
   Redirect (error_location cfg (csrf_message cookieState))].

(** What the server logged (logger and console). *)
Fixpoint logged (t : list Event) : list Event :=
  match t with
  | [] => []
  | Log l f m :: r => Log l f m :: logged r
  | ConsoleError a :: r => ConsoleError a :: logged r
  | _ :: r => logged r
  end.

(** src/routes/error.ts: the message the error route reads from the
    location it is reached by,
    [decodeURIComponent(query.error || query.message || "An unspecified
    error occurred.")]. *)
Definition errorRoutes_message (location : string) : option string :=
  Url.decodeURIComponent
    (Js.or_else (Url.location_param "error" location)
       (Js.or_else (Url.location_param "message" location)
          "An unspecified error occurred.")).

(** The parameters [getToken] sends for a code, and the address
    [verifyUserPermission] asks for a user. *)
Definition tokenParams_of (cfg : Config) (code : string) : TokenParams.t :=
  {| TokenParams.code := code;
     TokenParams.redirect_uri := callbackUrl (github cfg);
     TokenParams.scope := scope (github cfg) |}.

Definition permission_request_url (cfg : Config) (username : string) : string :=
  permission_url (Js.split "/" (repo (github cfg)) !! 0%nat)
                 (Js.split "/" (repo (github cfg)) !! 1%nat) username.

Definition user_url : string := "https://api.github.com/user".

(** The messages the callback puts in a failure redirect. *)
Definition msg_provider_fallback : string :=
  "An error occurred during GitHub authentication.".
Definition msg_code_missing : string :=
  "Authorization code missing from GitHub callback.".
Definition msg_profile_failed : string :=
  "Failed to fetch user profile from GitHub.".
Definition msg_access_denied : string :=
  "Access Denied: You do not have sufficient permissions for the configured repository.".
Definition msg_internal : string :=
  "An internal error occurred during callback processing.".

(** What the [catch] of the callback logs for a thrown value. *)
Definition callback_catch_log (err : Thrown) : Event :=
  match err with
  | ThrownError m =>
      Log LError [("error", LStr m); ("stack", LStack)] "Error in /callback route processing"
  | _ =>
      Log LError [("error", LThrown err)]
          "An unknown error occurred in /callback route processing"
  end.

(** The events of a callback that gets as far as the token exchange, in
    the order the handler emits them around the three provider calls. *)
Definition exchange_prefix : list Event :=
  [ClearCookie "oauth_state" "/";
   Log LInfo [] "OAuth state validated successfully.";
   Log LInfo [] "Exchanging authorization code for access token..."].

Definition token_obtained : Event := Log LInfo [] "Access token obtained successfully.".

Definition profile_logs (cfg : Config) (u : GitHubUser) : list Event :=
  [Log LInfo [] ("GitHub user profile fetched: " ++ login u);
   Log LInfo [] ("Verifying repository permissions for user: " ++ login u
                 ++ " on repo: " ++ repo (github cfg))].

Definition caught (cfg : Config) (err : Thrown) : list Event :=
  [callback_catch_log err; Redirect (error_location cfg msg_internal)].

Definition decision (cfg : Config) (u : GitHubUser) (accessToken : string)
    (r : Completion bool) : list Event :=
  match r with
  | Normal true =>
      [Log LInfo [] ("User " ++ login u ++ " has sufficient permissions for "
                     ++ repo (github cfg) ++ ".");
       Redirect (success_location cfg accessToken)]
  | Normal false =>
      [Log LWarn [] ("User " ++ login u ++ " does NOT have sufficient permissions for "
                     ++ repo (github cfg) ++ ".");
       Redirect (error_location cfg msg_access_denied)]
  | Throw e => caught cfg e
  end.

(** The variables [config] reads without a default. *)
Definition required_variables : list string :=
  ["GITHUB_CLIENT_ID"; "GITHUB_CLIENT_SECRET"; "GITHUB_CALLBACK_URL"; "GITHUB_REPO";
   "FRONTEND_URL"].

(** The three preconditions of the token exchange: the state check
    passed, the provider reported no error, a code came with the request. *)
Definition reaches_exchange (w : World) (request : Request) (c : string) : Prop :=
  csrf_rejected (cookieState_of w request) (state (query request)) = false
  /\ Js.truthy (error (query request)) = false
  /\ code (query request) = Some c /\ c <> "".

(** ** The other routes and plugins

    The routes beside the callback answer with effects the callback has no
    use for (setting a cookie, sending a file), so their traces are lists of
    [Effect]s; a log line or a redirect is the callback's [Event]. *)

(** The options object of [reply.setCookie]. *)
Record CookieOptions : Type := {
  path : string;
  httpOnly : bool;
  secure : bool;
  signed : bool;
  maxAge : Z;
  sameSite : string
}.

(** The [origin] option of @fastify/cors: a list of origins or a boolean. *)
Inductive OriginConfig : Type :=
| OriginList (origins : list string)
| OriginBool (b : bool).

Inductive Effect : Type :=
| Core (ev : Event)
| SetCookie (name value : string) (options : CookieOptions)
| SendFile (file : string)
| RegisterCors (origin : OriginConfig) (methods allowedHeaders : list string)
               (credentials : bool).

(** A computation over any kind of event. *)
Definition Run (E A : Type) : Type := (list E * Completion A)%type.

Definition run_ret {E A} (a : A) : Run E A := ([], Normal a).

Definition run_bind {E A B} (m : Run E A) (k : A -> Run E B) : Run E B :=
  match m with
  | (t, Normal a) => let '(t', r) := k a in ((t ++ t')%list, r)
  | (t, Throw e) => (t, Throw e)
  end.

Definition run_emit {E} (ev : E) : Run E unit := ([ev], Normal tt).

Definition run_lift {E A} (c : Completion A) : Run E A := ([], c).

Definition run_try {E A} (body : Run E A) (handler : Thrown -> Run E A) : Run E A :=
  match body with
  | (t, Normal a) => (t, Normal a)
  | (t, Throw e) => let '(t', r) := handler e in ((t ++ t')%list, r)
  end.

Notation "'let+' x ':=' m 'in' k" := (run_bind m (fun x => k))
  (at level 10, x name, m at level 100, k at level 200).
Notation "m ';+' k" := (run_bind m (fun _ => k))
  (at level 100, k at level 200, right associativity).

Definition effects {E A} (m : Run E A) : list E := fst m.
Definition completion {E A} (m : Run E A) : Completion A := snd m.

(** The redirects among the effects of a route. *)
Fixpoint effect_redirects (t : list Effect) : list string :=
  match t with
  | [] => []
  | Core (Redirect u) :: r => u :: effect_redirects r
  | _ :: r => effect_redirects r
  end.

(** *** src/routes/auth.ts *)

Module AuthorizeParams.
Record t : Type := { redirect_uri : string; scope : string; state : string }.
End AuthorizeParams.

(** What the entry route obtains from outside: [crypto.randomBytes] and
    [oauthClient.authorizeURL] (simple-oauth2); either may throw. *)
Record AuthWorld : Type := {
  randomBytes : nat -> Completion (list ascii);
  oauthClient_authorizeURL : AuthorizeParams.t -> Completion string
}.

Definition hex_digit_lower (n : N) : ascii :=
  match n with
  | 0 => "0" | 1 => "1" | 2 => "2" | 3 => "3" | 4 => "4" | 5 => "5"
  | 6 => "6" | 7 => "7" | 8 => "8" | 9 => "9" | 10 => "a" | 11 => "b"
  | 12 => "c" | 13 => "d" | 14 => "e" | _ => "f"
  end%N%char.

(** [buffer.toString("hex")] *)
Fixpoint to_hex (bytes : list ascii) : string :=
  match bytes with
  | [] => ""
  | b :: rest =>
      String (hex_digit_lower (N_of_ascii b / 16))
        (String (hex_digit_lower (N_of_ascii b mod 16)) (to_hex rest))
  end.

(** src/utils/oauth.ts *)
Definition getAuthorizationUrl (aw : AuthWorld) (cfg : Config) (state : string)
    : Completion string :=
  oauthClient_authorizeURL aw
    {| AuthorizeParams.redirect_uri := callbackUrl (github cfg);
       AuthorizeParams.scope := scope (github cfg);
       AuthorizeParams.state := state |}.

Definition state_cookie_options (cfg : Config) : CookieOptions :=
  {| path := "/";
     httpOnly := true;
     secure := String.eqb (nodeEnv cfg) "production";
     signed := true;
     maxAge := 300;
     sameSite := "lax" |}.

Definition msg_auth_failed : string := "Failed to initiate authentication.".

(** The [GET /auth] handler. *)
Definition authRoutes (aw : AuthWorld) (cfg : Config) : Run Effect unit :=
  run_try
    (let+ bytes := run_lift (randomBytes aw 16) in
     let state := to_hex bytes in
     run_emit (SetCookie "oauth_state" state (state_cookie_options cfg)) ;+
     let+ authorizationUrl := run_lift (getAuthorizationUrl aw cfg state) in
     run_emit (Core (Log LInfo []
                 ("Redirecting to GitHub for authorization. State: " ++ state))) ;+
     run_emit (Core (Redirect authorizationUrl)))
    (fun error =>
       match error with
       | ThrownError m =>
           run_emit (Core (Log LError [("error", LStr m); ("stack", LStack)]
                             "Error in /auth route"))
       | _ =>
           run_emit (Core (Log LError [("error", LThrown error)]
                             "An unknown error occurred in /auth route"))
       end ;+
       run_emit (Core (Redirect (error_location cfg msg_auth_failed)))).

(** *** src/routes/success.ts *)

Definition msg_token_missing : string :=
  "Authentication successful, but token not provided to success handler.".

(** The [GET /success] handler on [request.query.token]. *)
Definition successRoutes (cfg : Config) (token : option string) : Run Effect unit :=
  if negb (Js.truthy token) then
    run_emit (Core (Log LError [] "Token missing in /success route query.")) ;+
    run_emit (Core (Redirect (error_location cfg msg_token_missing)))
  else
    run_emit (Core (Log LInfo [] "Authentication successful, serving success.html page.")) ;+
    run_emit (SendFile "success.html").

(** *** src/routes/error.ts *)

Definition double_quote : ascii := "034"%char.

(** The [GET /error] handler on [request.query.error] and
    [request.query.message]; [decodeURIComponent] throws a [URIError] on a
    malformed escape. *)
Definition errorRoutes (query_error query_message : option string) : Run Effect unit :=
  let errorMessage :=
    Js.or_else query_error (Js.or_else query_message "An unspecified error occurred.") in
  let+ decoded :=
    run_lift (match Url.decodeURIComponent errorMessage with
              | Some d => Normal d
              | None => Throw (ThrownError "URI malformed")
              end) in
  run_emit (Core (Log LWarn []
              ("Displaying error page with message: "
               ++ String double_quote (decoded ++ String double_quote "")))) ;+
  run_emit (SendFile "error.html").

(** A route reached by following a redirect reads its query from the
    location, one value per name. *)
Definition follow_to_success (cfg : Config) (location : string) : Run Effect unit :=
  successRoutes cfg (Url.location_param "token" location).

Definition follow_to_error (location : string) : Run Effect unit :=
  errorRoutes (Url.location_param "error" location) (Url.location_param "message" location).

(** *** src/middleware/cors.ts *)

Definition corsPlugin (cfg : Config) : list Effect :=
  let '(pre, effectiveOriginConfig, allowedOriginsDisplay) :=
    if negb (String.eqb (frontendUrl cfg) "") then
      ([], OriginList [frontendUrl cfg], frontendUrl cfg)
    else if String.eqb (nodeEnv cfg) "production" then
      ([Core (Log LError []
          "CRITICAL: FRONTEND_URL is not set in production. CORS will be disabled (origin: false) to prevent open CORS policies. Frontend requests will likely fail.")],
       OriginBool false,
       "None (FRONTEND_URL not set in production - CORS disabled)")
    else
      ([Core (Log LWarn []
          "FRONTEND_URL not set in non-production environment. CORS will reflect request origin (origin: true). Ensure this is intended for your development setup.")],
       OriginBool true,
       "Any (FRONTEND_URL not set in non-production, reflecting request origin)") in
  (pre ++
   [RegisterCors effectiveOriginConfig ["GET"; "POST"; "OPTIONS"]
                 ["Content-Type"; "Authorization"] true;
    Core (Log LInfo []
      ("CORS configured. Allowed origins: " ++ allowedOriginsDisplay
       ++ ". Methods: GET, POST, OPTIONS. Credentials: true."))])%list.

(** *** src/views/success.html: the script of the success page *)

(** What the script finds in its window: whether there is an opener, the
    query string of the page, and which target origins [postMessage]
    accepts (it throws on the others). *)
Record Window : Type := {
  opener : bool;
  search : string;
  accepts_target : string -> bool
}.

Inductive PageEvent : Type :=
| PostMessage (message targetOrigin : string)
| SetStatus (text : string)
| WindowClose
| PageConsoleError (text : string) (args : list (option string)).
    (* [console.error]; an exception object among the arguments is not
       recorded *)

(** [JSON.stringify] of a string. *)
Definition json_escape (c : ascii) : string :=
  let n := N_of_ascii c in
  if (n =? 8)%N then "\b"
  else if (n =? 9)%N then "\t"
  else if (n =? 10)%N then "\n"
  else if (n =? 12)%N then "\f"
  else if (n =? 13)%N then "\r"
  else if (n =? 34)%N then String "\" (String double_quote "")
  else if (n =? 92)%N then "\\"
  else if (n <? 32)%N then
    "\u00" ++ String (hex_digit_lower (n / 16)) (String (hex_digit_lower (n mod 16)) "")
  else String c "".

Fixpoint json_escape_all (s : string) : string :=
  match s with
  | EmptyString => ""
  | String c t => json_escape c ++ json_escape_all t
  end.

Definition json_quote (s : string) : string :=
  String double_quote (json_escape_all s ++ String double_quote "").

(** [`authorization:${provider}:success:${JSON.stringify({token, provider})}`]
    with [provider = "github"]. *)
Definition success_message (token : string) : string :=
  "authorization:github:success:"
  ++ "{" ++ json_quote "token" ++ ":" ++ json_quote token ++ ","
  ++ json_quote "provider" ++ ":" ++ json_quote "github" ++ "}".

Definition page_get (name : string) (win : Window) : option string :=
  Url.entries_get name (Url.URLSearchParams_parse (search win)).

Definition success_page (win : Window) : list PageEvent :=
  let token := page_get "token" win in
  let origin := Js.or_else (page_get "origin" win) "*" in
  (if opener win then [PostMessage "authorizing:github" "*"] else [])
  ++
  (if Js.truthy token && negb (String.eqb origin "*") then
     if opener win then
       if accepts_target win origin then
         [PostMessage (success_message (Js.tmpl token)) origin;
          SetStatus "Authentication successful. Closing window...";
          WindowClose]
       else
         [SetStatus "Error sending authentication details to the main window.";
          PageConsoleError "[OAuth Success Page] Error during postMessage:" []]
     else
       [SetStatus "Error: Cannot find the main window to send authentication details.";
        PageConsoleError "[OAuth Success Page] window.opener is not available." []]
   else
     let errorMsg :=
       if negb (Js.truthy token) then "Error: Authentication token not found."
       else "Error: Target origin for authentication response not specified correctly." in
     [SetStatus errorMsg;
      PageConsoleError "[OAuth Success Page] Authentication failed. Token:"
                       [token; Some "Origin:"; Some origin]])%list.

(** The window the success page runs in when it was reached by a
    redirect. *)
Definition window_at (location : string) (has_opener : bool)
    (accepts : string -> bool) : Window :=
  {| opener := has_opener;
     search := Url.location_search location;
     accepts_target := accepts |}.

(** The posted messages of a page run. *)
Fixpoint posted (t : list PageEvent) : list (string * string) :=
  match t with
  | [] => []
  | PostMessage m o :: r => (m, o) :: posted r
  | _ :: r => posted r
  end.

(** The first required variable, in the order [config] reads them, that
    is unset or empty. *)
Definition first_missing (env : gmap string string) : option string :=
  List.find (fun key => negb (Js.truthy (env !! key))) required_variables.

(** ** The branches of the callback

    [callback_branch w cfg request location calls]: the branch the callback
    takes on [request], the location it redirects to there and the provider
    requests it has sent by then. *)
Inductive callback_branch (w : World) (cfg : Config) (request : Request)
    : string -> list Event -> Prop :=
| branch_csrf :
    csrf_rejected (cookieState_of w request) (state (query request)) = true ->
    callback_branch w cfg request
      (error_location cfg (csrf_message (cookieState_of w request))) []
| branch_provider_error :
    csrf_rejected (cookieState_of w request) (state (query request)) = false ->
    Js.truthy (error (query request)) = true ->
    callback_branch w cfg request
      (error_location cfg
         (Js.or_else (error_description (query request)) msg_provider_fallback)) []
| branch_code_missing :
    csrf_rejected (cookieState_of w request) (state (query request)) = false ->
    Js.truthy (error (query request)) = false ->
    Js.truthy (code (query request)) = false ->
    callback_branch w cfg request (error_location cfg msg_code_missing) []
| branch_token_failed (c : string) (e : Thrown) :
    reaches_exchange w request c ->
    outcome (getToken w cfg c) = Throw e ->
    callback_branch w cfg request (error_location cfg msg_internal)
      [TokenRequest (tokenParams_of cfg c)]
| branch_profile_failed (c T : string) :
    reaches_exchange w request c ->
    outcome (getToken w cfg c) = Normal T ->
    outcome (getGitHubUser w T) = Normal None ->
    callback_branch w cfg request (error_location cfg msg_profile_failed)
      [TokenRequest (tokenParams_of cfg c); FetchRequest user_url (github_headers T)]
| branch_bad_repo (c T : string) (u : GitHubUser) :
    reaches_exchange w request c ->
    outcome (getToken w cfg c) = Normal T ->
    outcome (getGitHubUser w T) = Normal (Some u) ->
    Js.includes (repo (github cfg)) "/" = false ->
    callback_branch w cfg request (error_location cfg msg_internal)
      [TokenRequest (tokenParams_of cfg c); FetchRequest user_url (github_headers T)]
| branch_checked (c T : string) (u : GitHubUser) (granted : bool) :
    reaches_exchange w request c ->
    outcome (getToken w cfg c) = Normal T ->
    outcome (getGitHubUser w T) = Normal (Some u) ->
    outcome (verifyUserPermission w cfg T (login u)) = Normal granted ->
    callback_branch w cfg request
      (if granted then success_location cfg T else error_location cfg msg_access_denied)
      [TokenRequest (tokenParams_of cfg c); FetchRequest user_url (github_headers T);
       FetchRequest (permission_request_url cfg (login u)) (github_headers T)].

(** The messages the callback itself writes into a failure redirect. *)
Definition fixed_failure_messages : list string :=
  ["CSRF validation failed: Invalid state cookie signature.";
   "CSRF validation failed: State parameter mismatch or missing.";
   msg_provider_fallback; msg_code_missing; msg_profile_failed; msg_access_denied;
   msg_internal].

(** ** A second deployment: a signer that marks what it signed *)

Module Issued.

Definition sign (v : string) : string := String "s" (String ":" v).

Definition unsign (signed : string) : UnsignResult :=
  match signed with
  | String "s" (String ":" v) => {| valid := true; renew := false; value := Some v |}
  | _ => {| valid := false; renew := false; value := None |}
  end.

Definition world : World :=
  {| unsignCookie := unsign;
     oauthClient_getToken := fun _ => Scenario.token_ok;
     fetch := fun url _ =>
       if String.eqb url "https://api.github.com/user" then Scenario.user_ok
       else Scenario.perm 200 "permission:admin";
     json_profile := Scenario.profile_of;
     json_permission := Scenario.permission_of;
     parseInt10 := Scenario.parse_decimal |}.

Definition sixteen_bytes : list ascii :=
  map ascii_of_nat [222; 173; 190; 239; 0; 1; 2; 3; 4; 5; 6; 7; 8; 9; 10; 255].

Definition auth_world : AuthWorld :=
  {| randomBytes := fun n => Normal (firstn n sixteen_bytes);
     oauthClient_authorizeURL := fun p =>
       Normal ("https://github.com/login/oauth/authorize?state="
               ++ AuthorizeParams.state p) |}.

(** The provider's client fails to build the address. *)
Definition failing_auth_world : AuthWorld :=
  {| randomBytes := fun n => Normal (firstn n sixteen_bytes);
     oauthClient_authorizeURL := fun _ => Throw (ThrownError "Invalid options") |}.

End Issued.

(** * Properties *)

(** ** Encoders on concrete text *)

Example encodeURIComponent_space_colon :
  Url.encodeURIComponent "User denied: no" = "User%20denied%3A%20no".
Proof. reflexivity. Qed.

Example URLSearchParams_double_encoding :
  Url.URLSearchParams_toString
    [("error", Url.encodeURIComponent "User denied"); ("origin", "https://cms.example")]
  = "error=User%2520denied&origin=https%3A%2F%2Fcms.example".
Proof. reflexivity. Qed.

Example split_owner_repo :
  Js.split "/" "octo/site" = ["octo"; "site"] /\ Js.split "/" "norepo" = ["norepo"]
  /\ Js.includes "octo/site" "/" = true /\ Js.includes "norepo" "/" = false.
Proof. repeat split; reflexivity. Qed.

Example scenario_config_loads :
  config (Scenario.world Scenario.token_ok Scenario.user_ok (Scenario.perm 200 "permission:write"))
         (Scenario.env_with_repo "octo/site")
  = ([], Normal Scenario.cfg).
Proof. vm_compute. reflexivity. Qed.



(** ** Encoding round trips *)

Module UrlFacts.
Import Url.

Ltac each_byte c := destruct c as [[] [] [] [] [] [] [] []].

Lemma form_decode_byte (c : ascii) (rest : string) :
  form_decode (encode_byte form_unreserved form_special c ++ rest)
  = String c (form_decode rest).
Proof. each_byte c; reflexivity. Qed.

Lemma form_decode_encode (s : string) : form_decode (form_encode s) = s.
Proof.
  unfold form_encode.
  induction s as [|c t IH]; [reflexivity|].
  simpl encode_with. rewrite form_decode_byte, IH. reflexivity.
Qed.

Lemma decodeURIComponent_byte (c : ascii) (rest : string) :
  decodeURIComponent (encode_byte uri_unreserved (fun _ => None) c ++ rest)
  = option_map (String c) (decodeURIComponent rest).
Proof. each_byte c; reflexivity. Qed.

Lemma decodeURIComponent_encode (s : string) :
  decodeURIComponent (encodeURIComponent s) = Some s.
Proof.
  unfold encodeURIComponent.
  induction s as [|c t IH]; [reflexivity|].
  simpl encode_with. rewrite decodeURIComponent_byte, IH. reflexivity.
Qed.

Lemma free_of_app (sep : ascii) (a b : string) :
  free_of sep (a ++ b) = free_of sep a && free_of sep b.
Proof.
  induction a as [|c a IH]; [reflexivity|].
  simpl. rewrite IH. apply andb_assoc.
Qed.

Lemma form_encode_byte_free (sep c : ascii) :
  sep = "&"%char \/ sep = "="%char \/ sep = "?"%char ->
  free_of sep (encode_byte form_unreserved form_special c) = true.
Proof. intros [-> | [-> | ->]]; each_byte c; reflexivity. Qed.

Lemma form_encode_free (sep : ascii) (s : string) :
  sep = "&"%char \/ sep = "="%char \/ sep = "?"%char ->
  free_of sep (form_encode s) = true.
Proof.
  intros Hsep. unfold form_encode.
  induction s as [|c t IH]; [reflexivity|].
  simpl encode_with. rewrite free_of_app, IH, form_encode_byte_free by exact Hsep.
  reflexivity.
Qed.

Lemma cut_free (sep : ascii) (a b : string) :
  free_of sep a = true -> cut sep (a ++ String sep b) = (a, Some b).
Proof.
  induction a as [|c a IH]; simpl; intros H.
  - rewrite Ascii.eqb_refl. reflexivity.
  - apply andb_true_iff in H as [Hc Ha]. apply negb_true_iff in Hc.
    rewrite Hc, (IH Ha). reflexivity.
Qed.

Lemma split_free_cons (sep : ascii) (a b : string) :
  free_of sep a = true -> Js.split sep (a ++ String sep b) = a :: Js.split sep b.
Proof.
  induction a as [|c a IH]; simpl; intros H.
  - rewrite Ascii.eqb_refl. reflexivity.
  - apply andb_true_iff in H as [Hc Ha]. apply negb_true_iff in Hc.
    rewrite Hc, (IH Ha). reflexivity.
Qed.

Lemma split_free (sep : ascii) (a : string) :
  free_of sep a = true -> Js.split sep a = [a].
Proof.
  induction a as [|c a IH]; simpl; intros H; [reflexivity|].
  apply andb_true_iff in H as [Hc Ha]. apply negb_true_iff in Hc.
  rewrite Hc, (IH Ha). reflexivity.
Qed.

Lemma form_pair_parse (k v : string) :
  parse_pair (form_pair (k, v)) = (k, v).
Proof.
  unfold parse_pair, form_pair. cbn [fst snd].
  change (form_encode k ++ "=" ++ form_encode v)
    with (form_encode k ++ String "=" (form_encode v)).
  rewrite cut_free by (apply form_encode_free; auto).
  rewrite !form_decode_encode. reflexivity.
Qed.

Lemma form_pair_free (kv : string * string) : free_of "&" (form_pair kv) = true.
Proof.
  unfold form_pair. rewrite !free_of_app, !form_encode_free by auto. reflexivity.
Qed.

Lemma form_pair_nonempty (kv : string * string) : String.eqb (form_pair kv) "" = false.
Proof.
  unfold form_pair. destruct (form_encode (fst kv)); reflexivity.
Qed.

(** A query string of two entries reads back as those two entries. *)
Lemma parse_two_entries (e1 e2 : string * string) :
  URLSearchParams_parse (String "?" (URLSearchParams_toString [e1; e2])) = [e1; e2].
Proof.
  unfold URLSearchParams_parse. rewrite Ascii.eqb_refl.
  simpl URLSearchParams_toString.
  change (form_pair e1 ++ "&" ++ form_pair e2)
    with (form_pair e1 ++ String "&" (form_pair e2)).
  rewrite split_free_cons by apply form_pair_free.
  rewrite split_free by apply form_pair_free.
  cbn [List.filter]. rewrite !form_pair_nonempty. cbn [negb map].
  destruct e1, e2. rewrite !form_pair_parse. reflexivity.
Qed.

End UrlFacts.

(** ** The handler monad and the trace observations *)

Ltac run :=
  cbn [bind emit log ret throw lift try_catch fst snd app trace outcome
       await_oauthClient_getToken await_fetch negb].

Lemma redirects_app (t1 t2 : list Event) :
  redirects (t1 ++ t2) = (redirects t1 ++ redirects t2)%list.
Proof.
  induction t1 as [|ev t1 IH]; [reflexivity|].
  destruct ev; simpl; rewrite IH; reflexivity.
Qed.

Lemma provider_calls_app (t1 t2 : list Event) :
  provider_calls (t1 ++ t2) = (provider_calls t1 ++ provider_calls t2)%list.
Proof.
  induction t1 as [|ev t1 IH]; [reflexivity|].
  destruct ev; simpl; rewrite IH; reflexivity.
Qed.

Lemma jar_after_cleared (t : list Event) : jar_after None t = None.
Proof.
  unfold jar_after. induction t as [|ev t IH]; [reflexivity|].
  simpl. destruct ev; try exact IH. destruct (String.eqb name "oauth_state"); exact IH.
Qed.

Lemma bind_ret_l {A B} (a : A) (k : A -> M B) : bind (ret a) k = k a.
Proof. unfold bind, ret. destruct (k a). reflexivity. Qed.

Lemma bind_ret_r {A} (m : M A) : bind m ret = m.
Proof.
  destruct m as [t [a|e]]; [|reflexivity].
  unfold bind, ret. rewrite app_nil_r. reflexivity.
Qed.

Lemma bind_assoc {A B C} (m : M A) (k : A -> M B) (h : B -> M C) :
  bind (bind m k) h = bind m (fun a => bind (k a) h).
Proof.
  destruct m as [t [a|e]]; [|reflexivity].
  unfold bind. destruct (k a) as [t1 [b|e]]; [|reflexivity].
  destruct (h b) as [t2 r]. rewrite app_assoc. reflexivity.
Qed.

(** A [catch] sees exactly the throws of its body. *)
Lemma try_catch_outcome {A} (body : M A) (handler : Thrown -> M A) :
  (forall e, exists a, outcome (handler e) = Normal a) ->
  exists a, outcome (try_catch body handler) = Normal a.
Proof.
  intros H. destruct body as [t [a|e]]; [exists a; reflexivity|].
  destruct (H e) as (a & Ha). exists a.
  unfold try_catch, outcome in *. destruct (handler e). exact Ha.
Qed.

(** ** The three provider-facing operations *)

Section Components.

Variable w : World.
Variable cfg : Config.

Lemma getToken_resolved (c s : string) :
  oauthClient_getToken w (tokenParams_of cfg c) = TokenResolved (TokenString s) ->
  getToken w cfg c = ([TokenRequest (tokenParams_of cfg c)], Normal s).
Proof.
  intros H. unfold getToken. fold (tokenParams_of cfg c). run. rewrite H. reflexivity.
Qed.

Lemma getToken_failed (c : string) :
  (oauthClient_getToken w (tokenParams_of cfg c) = TokenResolved TokenNotString
   \/ exists e, oauthClient_getToken w (tokenParams_of cfg c) = TokenRejected e) ->
  exists m args,
    getToken w cfg c
    = ([TokenRequest (tokenParams_of cfg c); ConsoleError args],
       Throw (ThrownError ("Failed to obtain access token from GitHub: " ++ m))).
Proof.
  intros H. unfold getToken. fold (tokenParams_of cfg c). run.
  destruct H as [H | [e H]]; rewrite H; run; eauto.
Qed.

Lemma getToken_cases (c : string) :
  exists args r,
    getToken w cfg c = (TokenRequest (tokenParams_of cfg c) :: map ConsoleError args, r).
Proof.
  unfold getToken. fold (tokenParams_of cfg c). run.
  destruct (oauthClient_getToken w (tokenParams_of cfg c)) as [[s|]|e]; run.
  - exists [], (Normal s). reflexivity.
  - eexists [_], _. reflexivity.
  - eexists [_], _. reflexivity.
Qed.

Lemma getGitHubUser_cases (tok : string) :
  exists l r,
    getGitHubUser w tok = (FetchRequest user_url (github_headers tok) :: [l], Normal r)
    /\ redirects [l] = [] /\ provider_calls [l] = [].
Proof.
  unfold getGitHubUser. run. fold user_url.
  destruct (fetch w user_url (github_headers tok)) as [r|e]; run.
  - destruct (ok r); run.
    + destruct (json_profile w (text r)); run; eauto.
    + eauto.
  - eauto.
Qed.

Lemma getGitHubUser_ok (tok : string) (r : Response) (u : GitHubUser) :
  fetch w user_url (github_headers tok) = FetchResolved r ->
  ok r = true ->
  json_profile w (text r) = Normal u ->
  outcome (getGitHubUser w tok) = Normal (Some u).
Proof.
  intros Hf Hok Hj. unfold getGitHubUser. run. fold user_url.
  rewrite Hf. run. rewrite Hok. run. rewrite Hj. reflexivity.
Qed.

Lemma verifyUserPermission_bad_repo (tok username : string) :
  Js.includes (repo (github cfg)) "/" = false ->
  verifyUserPermission w cfg tok username
  = ([], Throw (ThrownError "Invalid GITHUB_REPO format. Expected owner/repo.")).
Proof. intros H. unfold verifyUserPermission. rewrite H. reflexivity. Qed.

(** With a well-formed resource name the check asks the provider once and
    then always answers with a boolean: every throw between the request and
    the answer is caught by the operation's own [catch]. *)
Lemma verifyUserPermission_answers (tok username : string) :
  Js.includes (repo (github cfg)) "/" = true ->
  exists logs b,
    verifyUserPermission w cfg tok username
    = (FetchRequest (permission_request_url cfg username) (github_headers tok) :: logs,
       Normal b)
    /\ redirects logs = [] /\ provider_calls logs = [].
Proof.
  intros H. unfold verifyUserPermission. rewrite H. run.
  fold (permission_request_url cfg username).
  destruct (fetch w _ _) as [r|e]; run.
  - destruct (ok r); run.
    + destruct (json_permission w (text r)); run; eauto.
    + destruct (status r =? 404)%Z; run; eauto.
  - eauto.
Qed.

Lemma verifyUserPermission_cases (tok username : string) :
  exists t r,
    verifyUserPermission w cfg tok username = (t, r)
    /\ redirects t = [] /\ length (provider_calls t) <= 1.
Proof.
  destruct (Js.includes (repo (github cfg)) "/") eqn:H.
  - destruct (verifyUserPermission_answers tok username H) as (l & b & E & R & P).
    rewrite E. do 2 eexists. split; [reflexivity|]. simpl. rewrite R, P. auto.
  - rewrite verifyUserPermission_bad_repo by exact H. do 2 eexists.
    split; [reflexivity|]. simpl. auto.
Qed.

(** A non-success answer other than 404: the error raised for it is caught
    inside the operation, which answers [false]. *)
Lemma verifyUserPermission_other_status (tok username : string) (r : Response) :
  Js.includes (repo (github cfg)) "/" = true ->
  fetch w (permission_request_url cfg username) (github_headers tok) = FetchResolved r ->
  ok r = false ->
  outcome (verifyUserPermission w cfg tok username) = Normal false.
Proof.
  intros H Hf Hok. unfold verifyUserPermission. rewrite H. run.
  fold (permission_request_url cfg username). rewrite Hf. run. rewrite Hok. run.
  destruct (status r =? 404)%Z; reflexivity.
Qed.

End Components.

(** ** The callback handler, branch by branch *)

Section Callback.

Variable w : World.
Variable cfg : Config.

Lemma callback_csrf_rejected (request : Request) :
  csrf_rejected (cookieState_of w request) (state (query request)) = true ->
  callbackRoutes w cfg request = (csrf_failure_trace cfg (cookieState_of w request), Normal tt).
Proof.
  intros H. unfold callbackRoutes. fold (cookieState_of w request). rewrite H.
  unfold csrf_failure_trace, csrf_message.
  destruct (valid (cookieState_of w request)); reflexivity.
Qed.

Lemma callback_provider_error (request : Request) :
  csrf_rejected (cookieState_of w request) (state (query request)) = false ->
  Js.truthy (error (query request)) = true ->
  callbackRoutes w cfg request
  = ([ClearCookie "oauth_state" "/";
      Log LInfo [] "OAuth state validated successfully.";
      Log LError [] ("OAuth Error from GitHub: " ++ Js.tmpl (error (query request))
                     ++ " - " ++ Js.tmpl (error_description (query request)));
      Redirect (error_location cfg
                  (Js.or_else (error_description (query request)) msg_provider_fallback))],
     Normal tt).
Proof.
  intros H He. unfold callbackRoutes. fold (cookieState_of w request).
  rewrite H, He. reflexivity.
Qed.

Lemma callback_code_missing (request : Request) :
  csrf_rejected (cookieState_of w request) (state (query request)) = false ->
  Js.truthy (error (query request)) = false ->
  Js.truthy (code (query request)) = false ->
  callbackRoutes w cfg request
  = ([ClearCookie "oauth_state" "/";
      Log LInfo [] "OAuth state validated successfully.";
      Log LError [] "No authorization code received from GitHub.";
      Redirect (error_location cfg msg_code_missing)],
     Normal tt).
Proof.
  intros H He Hc. unfold callbackRoutes. fold (cookieState_of w request).
  rewrite H, He, Hc. reflexivity.
Qed.

Ltac enter_exchange H request :=
  destruct H as (Hcsrf & Herr & Hcode & Hne);
  apply String.eqb_neq in Hne;
  unfold callbackRoutes;
  match goal with w : World |- _ => fold (cookieState_of w request) end;
  rewrite Hcsrf, Herr, Hcode; unfold Js.truthy, Js.tmpl; rewrite Hne.

Lemma callback_token_failed (request : Request) (c : string) t1 e :
  reaches_exchange w request c ->
  getToken w cfg c = (t1, Throw e) ->
  callbackRoutes w cfg request = ((exchange_prefix ++ t1 ++ caught cfg e)%list, Normal tt).
Proof.
  intros H Ht. enter_exchange H request. rewrite Ht. run.
  destruct e; reflexivity.
Qed.

Lemma callback_profile_failed (request : Request) (c : string) t1 T t2 :
  reaches_exchange w request c ->
  getToken w cfg c = (t1, Normal T) ->
  getGitHubUser w T = (t2, Normal None) ->
  callbackRoutes w cfg request
  = ((exchange_prefix ++ t1 ++ token_obtained :: t2
      ++ [Log LError [] "Failed to fetch GitHub user profile.";
          Redirect (error_location cfg msg_profile_failed)])%list,
     Normal tt).
Proof.
  intros H Ht Hu. enter_exchange H request. rewrite Ht. run. rewrite Hu. run.
  reflexivity.
Qed.

Lemma callback_permission_checked (request : Request) (c : string) t1 T t2 u t3 r3 :
  reaches_exchange w request c ->
  getToken w cfg c = (t1, Normal T) ->
  getGitHubUser w T = (t2, Normal (Some u)) ->
  verifyUserPermission w cfg T (login u) = (t3, r3) ->
  callbackRoutes w cfg request
  = ((exchange_prefix ++ t1 ++ token_obtained :: t2 ++ profile_logs cfg u ++ t3
      ++ decision cfg u T r3)%list,
     Normal tt).
Proof.
  intros H Ht Hu Hp. enter_exchange H request. rewrite Ht. run. rewrite Hu. run.
  rewrite Hp.
  destruct r3 as [[|]|e]; [| |destruct e]; run;
    repeat (rewrite <- app_assoc; cbn [app]); reflexivity.
Qed.

(** Every callback ends normally, with the cookie directive first and one
    redirect last. *)
Lemma callback_shape (request : Request) :
  exists rest url,
    callbackRoutes w cfg request
    = (ClearCookie "oauth_state" "/" :: rest ++ [Redirect url], Normal tt)
    /\ redirects rest = []
    /\ length (provider_calls rest) <= 3.
Proof.
  destruct (csrf_rejected (cookieState_of w request) (state (query request))) eqn:Hcsrf.
  { rewrite callback_csrf_rejected by exact Hcsrf.
    eexists [_], _. split; [reflexivity|]. simpl. auto. }
  destruct (Js.truthy (error (query request))) eqn:Herr.
  { rewrite callback_provider_error by assumption.
    eexists [_; _], _. split; [reflexivity|]. simpl. auto. }
  destruct (Js.truthy (code (query request))) eqn:Hcode.
  2:{ rewrite callback_code_missing by assumption.
      eexists [_; _], _. split; [reflexivity|]. simpl. auto. }
  destruct (code (query request)) as [c|] eqn:Ec; [|discriminate].
  assert (R : reaches_exchange w request c).
  { repeat split; try assumption. cbn in Hcode. intros ->. discriminate. }
  destruct (getToken_cases w cfg c) as (args & r1 & Ht).
  assert (Rargs : redirects (map ConsoleError args) = []
                  /\ provider_calls (map ConsoleError args) = []).
  { clear. induction args; simpl; auto. }
  destruct Rargs as [Ra Pa].
  destruct r1 as [T|e].
  2:{ rewrite (callback_token_failed _ _ _ _ R Ht).
      eexists (_ :: _ :: TokenRequest _ :: map ConsoleError args ++ [callback_catch_log e])%list, _.
      split; [simpl; rewrite <- app_assoc; reflexivity|].
      simpl. rewrite redirects_app, provider_calls_app, Ra, Pa.
      destruct e; simpl; auto. }
  destruct (getGitHubUser_cases w T) as (l & r2 & Hu & Rl & Pl).
  destruct r2 as [u|].
  2:{ rewrite (callback_profile_failed _ _ _ _ _ R Ht Hu).
      eexists (_ :: _ :: TokenRequest _ :: map ConsoleError args
               ++ token_obtained :: FetchRequest _ _ :: [l; _])%list, _.
      split; [simpl; rewrite <- app_assoc; reflexivity|].
      simpl in Rl, Pl |- *. rewrite redirects_app, provider_calls_app, Ra, Pa.
      simpl. destruct l; simpl in *; try discriminate; auto. }
  destruct (verifyUserPermission_cases w cfg T (login u)) as (t3 & r3 & Hp & R3 & P3).
  rewrite (callback_permission_checked _ _ _ _ _ _ _ _ R Ht Hu Hp).
  assert (D : exists ev url, decision cfg u T r3 = [ev; Redirect url]
                             /\ redirects [ev] = [] /\ provider_calls [ev] = []).
  { destruct r3 as [[|]|e]; simpl; [eauto | eauto |].
    unfold caught. destruct e; simpl; eauto. }
  destruct D as (ev & url & -> & Rev & Pev).
  eexists (_ :: _ :: TokenRequest _ :: map ConsoleError args
           ++ token_obtained :: FetchRequest _ _ :: l :: profile_logs cfg u ++ t3 ++ [ev])%list,
          url.
  split.
  { simpl. rewrite <- !app_assoc. simpl. rewrite <- !app_assoc. reflexivity. }
  simpl. rewrite !redirects_app, !provider_calls_app, Ra, Pa.
  destruct l; simpl in Rl, Pl; try discriminate; simpl;
    rewrite ?redirects_app, ?provider_calls_app, ?R3, ?Rev, ?Pev, ?length_app; simpl;
    (split; [reflexivity | lia]).
Qed.

End Callback.

(** ** What the terminal pages read from a redirect *)

Section Locations.

Variable cfg : Config.

Lemma success_location_read (T : string) :
  Url.location_path (success_location cfg T) = "/success"
  /\ Url.location_param "token" (success_location cfg T) = Some T
  /\ Url.location_param "origin" (success_location cfg T) = Some (frontendUrl cfg).
Proof.
  unfold Url.location_path, Url.location_param, Url.location_search, success_location.
  set (q := Url.URLSearchParams_toString _).
  change (Url.cut "?" ("/success?" ++ q)) with ("/success", Some q).
  subst q. cbv iota. rewrite UrlFacts.parse_two_entries. repeat split; reflexivity.
Qed.

Lemma error_location_read (message : string) :
  Url.location_path (error_location cfg message) = "/error"
  /\ Url.location_param "error" (error_location cfg message)
     = Some (Url.encodeURIComponent message)
  /\ Url.location_param "origin" (error_location cfg message) = Some (frontendUrl cfg).
Proof.
  unfold Url.location_path, Url.location_param, Url.location_search, error_location.
  set (q := Url.URLSearchParams_toString _).
  change (Url.cut "?" ("/error?" ++ q)) with ("/error", Some q).
  subst q. cbv iota. rewrite UrlFacts.parse_two_entries. repeat split; reflexivity.
Qed.

Lemma encodeURIComponent_nonempty (message : string) :
  message <> "" -> String.eqb (Url.encodeURIComponent message) "" = false.
Proof.
  destruct message as [|c t]; [congruence|]. intros _.
  unfold Url.encodeURIComponent. simpl Url.encode_with.
  unfold Url.encode_byte, Url.percent_byte.
  destruct (Url.uri_unreserved c); reflexivity.
Qed.

(** The error route recovers the message the callback encoded. *)
Lemma error_location_message (message : string) :
  message <> "" -> errorRoutes_message (error_location cfg message) = Some message.
Proof.
  intros H. unfold errorRoutes_message.
  destruct (error_location_read message) as (_ & -> & _).
  unfold Js.or_else at 1. rewrite encodeURIComponent_nonempty by exact H.
  apply UrlFacts.decodeURIComponent_encode.
Qed.

Lemma error_location_inj (m1 m2 : string) :
  error_location cfg m1 = error_location cfg m2 -> m1 = m2.
Proof.
  intros H. apply (f_equal (Url.location_param "error")) in H.
  destruct (error_location_read m1) as (_ & E1 & _).
  destruct (error_location_read m2) as (_ & E2 & _).
  rewrite E1, E2 in H. injection H as H.
  apply (f_equal Url.decodeURIComponent) in H.
  rewrite !UrlFacts.decodeURIComponent_encode in H. congruence.
Qed.

End Locations.

(** ** State validation (CSRF) *)

Section StateValidation.

Variable w : World.
Variable cfg : Config.

(** Signature verification of the empty cookie text fails: the cookie
    library finds no signature in it. *)
Hypothesis unsign_empty : valid (unsignCookie w "") = false.

Lemma cookieState_absent (request : Request) :
  cookies_oauth_state request = None -> cookieState_of w request = unsignCookie w "".
Proof. intros H. unfold cookieState_of. rewrite H. reflexivity. Qed.

Lemma csrf_rejected_invalid (cs : UnsignResult) (q : option string) :
  valid cs = false -> csrf_rejected cs q = true.
Proof.
  intros H. unfold csrf_rejected. rewrite H. apply orb_true_iff. left.
  apply orb_true_r.
Qed.

Lemma csrf_rejected_false (cs : UnsignResult) (q : option string) :
  csrf_rejected cs q = false ->
  valid cs = true /\ exists s, s <> "" /\ value cs = Some s /\ q = Some s.
Proof.
  unfold csrf_rejected, Js.truthy, Js.strict_neq. intros H.
  destruct q as [s|]; [|discriminate].
  destruct (String.eqb s "") eqn:Es; [discriminate|].
  destruct (valid cs); [|discriminate].
  destruct (value cs) as [v|]; [|discriminate].
  simpl in H. destruct (String.eqb v s) eqn:Ev; [|discriminate].
  apply String.eqb_eq in Ev. subst v. apply String.eqb_neq in Es.
  split; [reflexivity|]. exists s. auto.
Qed.

(** The state check passes exactly for a verified cookie whose value is
    the non-empty state of the query string. *)
Lemma csrf_rejected_false_iff (cs : UnsignResult) (q : option string) :
  csrf_rejected cs q = false <->
  valid cs = true /\ exists s, s <> "" /\ value cs = Some s /\ q = Some s.
Proof.
  split; [apply csrf_rejected_false|].
  intros [Hv (s & Hs & Hval & ->)].
  unfold csrf_rejected, Js.truthy, Js.strict_neq. rewrite Hv, Hval.
  apply String.eqb_neq in Hs. rewrite Hs, String.eqb_refl. reflexivity.
Qed.

(** C3: state validation fails, and the callback answers with the CSRF
    failure redirect without going further, whenever the state cookie is
    absent, its signature is invalid, or the unsigned value differs from the
    query-string state; the callback gets past validation only when the
    signature verifies and the two values are the same string. *)
Theorem state_validation (request : Request) :
  let cs := cookieState_of w request in
  let q := state (query request) in
  ((cookies_oauth_state request = None \/ valid cs = false \/ value cs <> q) ->
     csrf_rejected cs q = true
     /\ callbackRoutes w cfg request = (csrf_failure_trace cfg cs, Normal tt)
     /\ Url.location_path (error_location cfg (csrf_message cs)) = "/error"
     /\ provider_calls (csrf_failure_trace cfg cs) = [])
  /\ (csrf_rejected cs q = false ->
        valid cs = true /\ exists s, value cs = Some s /\ q = Some s)
  /\ (In (Log LInfo [] "OAuth state validated successfully.")
         (trace (callbackRoutes w cfg request)) ->
        valid cs = true /\ exists s, value cs = Some s /\ q = Some s).
Proof.
  intros cs q.
  assert (P : csrf_rejected cs q = false ->
              valid cs = true /\ exists s, value cs = Some s /\ q = Some s).
  { intros H. destruct (csrf_rejected_false _ _ H) as (Hv & s & _ & Hs & Hq). eauto. }
  split; [|split; [exact P|]].
  - intros H.
    assert (R : csrf_rejected cs q = true).
    { destruct (csrf_rejected cs q) eqn:E; [reflexivity|]. exfalso.
      destruct (P eq_refl) as (Hv & s & Hs & Hq).
      destruct H as [H | [H | H]].
      + subst cs. rewrite (cookieState_absent _ H), unsign_empty in Hv. discriminate.
      + congruence.
      + congruence. }
    split; [exact R|]. split; [apply callback_csrf_rejected; exact R|].
    split; [apply error_location_read | reflexivity].
  - intros Hin. apply P.
    destruct (csrf_rejected cs q) eqn:E; [|reflexivity]. exfalso.
    rewrite (callback_csrf_rejected w cfg request E) in Hin.
    simpl in Hin. destruct Hin as [Hin | [Hin | [Hin | []]]]; discriminate.
Qed.

(** C10: a callback that arrives without the [oauth_state] cookie is
    answered with a redirect to the failure terminal carrying a CSRF-failure
    message and the configured origin, and the cause it names is "Invalid
    state cookie signature.", not the state-mismatch cause. *)
Theorem absent_cookie_reported_as_invalid_signature (request : Request) :
  cookies_oauth_state request = None ->
  let location :=
    error_location cfg "CSRF validation failed: Invalid state cookie signature." in
  callbackRoutes w cfg request
  = ([ClearCookie "oauth_state" "/";
      Log LWarn [] "Invalid OAuth state parameter or cookie mismatch. Potential CSRF attack.";
      Redirect location],
     Normal tt)
  /\ Url.location_path location = "/error"
  /\ Url.location_param "origin" location = Some (frontendUrl cfg)
  /\ errorRoutes_message location
     = Some "CSRF validation failed: Invalid state cookie signature."
  /\ location
     <> error_location cfg "CSRF validation failed: State parameter mismatch or missing.".
Proof.
  intros H location.
  assert (V : valid (cookieState_of w request) = false).
  { rewrite (cookieState_absent _ H). exact unsign_empty. }
  split.
  - rewrite callback_csrf_rejected by (apply csrf_rejected_invalid; exact V).
    unfold csrf_failure_trace, csrf_message. rewrite V. reflexivity.
  - split; [apply error_location_read|]. split; [apply error_location_read|].
    split; [apply error_location_message; discriminate|].
    intros E. apply error_location_inj in E. discriminate.
Qed.

(** C4, amended: every invocation of the callback emits the directive
    clearing [oauth_state] as its first effect, before the one redirect that
    is its outcome, on every branch. The handler keeps no record of the
    states it has seen: a state is single-use only for a user agent that
    applies the directive (it then holds no state cookie, so its next
    callback fails validation), while a request that presents the same cookie
    and state again gets the same verdict from the state check again. *)
Theorem state_cookie_cleared_on_every_branch (request : Request) :
  (exists rest url,
     callbackRoutes w cfg request
     = (ClearCookie "oauth_state" "/" :: rest ++ [Redirect url], Normal tt)
     /\ redirects rest = [])
  /\ jar_after (cookies_oauth_state request) (trace (callbackRoutes w cfg request)) = None
  /\ (forall again : Request,
        cookies_oauth_state again
        = jar_after (cookies_oauth_state request) (trace (callbackRoutes w cfg request)) ->
        callbackRoutes w cfg again
        = (csrf_failure_trace cfg (unsignCookie w ""), Normal tt))
  /\ (forall again : Request,
        cookies_oauth_state again = cookies_oauth_state request ->
        state (query again) = state (query request) ->
        csrf_rejected (cookieState_of w again) (state (query again))
        = csrf_rejected (cookieState_of w request) (state (query request))
        /\ exists rest url,
             callbackRoutes w cfg again
             = (ClearCookie "oauth_state" "/" :: rest ++ [Redirect url], Normal tt)).
Proof.
  destruct (callback_shape w cfg request) as (rest & url & E & R & _).
  assert (J : jar_after (cookies_oauth_state request)
                        (trace (callbackRoutes w cfg request)) = None).
  { rewrite E. unfold trace, jar_after. simpl. apply jar_after_cleared. }
  split; [eauto|]. split; [exact J|]. split.
  - intros again H. rewrite J in H.
    rewrite <- (cookieState_absent _ H).
    apply callback_csrf_rejected, csrf_rejected_invalid.
    rewrite (cookieState_absent _ H). exact unsign_empty.
  - intros again Hc Hs. split.
    + unfold cookieState_of. rewrite Hc, Hs. reflexivity.
    + destruct (callback_shape w cfg again) as (rest' & url' & E' & _). eauto.
Qed.

End StateValidation.

(** ** What a CSRF failure shows the client *)

(** C2, counterexample: a callback rejected for a forged cookie signature
    and one rejected for a state mismatch are redirected to different
    locations, while the server logs the same line for both. *)
Lemma csrf_causes_visible_in_redirect :
  let w := Scenario.w_write in
  let cfg := Scenario.cfg in
  csrf_rejected (cookieState_of w Scenario.forged_request)
                (state (query Scenario.forged_request)) = true
  /\ valid (cookieState_of w Scenario.forged_request) = false
  /\ csrf_rejected (cookieState_of w Scenario.mismatch_request)
                   (state (query Scenario.mismatch_request)) = true
  /\ valid (cookieState_of w Scenario.mismatch_request) = true
  /\ redirects (trace (callbackRoutes w cfg Scenario.forged_request))
     = ["/error?error=CSRF%2520validation%2520failed%253A%2520Invalid%2520state%2520cookie%2520signature.&origin=https%3A%2F%2Fcms.example"]
  /\ redirects (trace (callbackRoutes w cfg Scenario.mismatch_request))
     = ["/error?error=CSRF%2520validation%2520failed%253A%2520State%2520parameter%2520mismatch%2520or%2520missing.&origin=https%3A%2F%2Fcms.example"]
  /\ redirects (trace (callbackRoutes w cfg Scenario.forged_request))
     <> redirects (trace (callbackRoutes w cfg Scenario.mismatch_request))
  /\ logged (trace (callbackRoutes w cfg Scenario.forged_request))
     = logged (trace (callbackRoutes w cfg Scenario.mismatch_request)).
Proof.
  cbv zeta. repeat split; try (vm_compute; reflexivity).
  vm_compute. discriminate.
Qed.

(** C2, amended: two callbacks that fail CSRF validation, one for an
    invalid cookie signature and one for a state mismatch, are redirected to
    the same path with the same origin parameter, but the error parameter
    names the cause ("Invalid state cookie signature." against "State
    parameter mismatch or missing."), so the two locations differ; the
    server-side log is the same single warning for both. *)
Theorem csrf_failure_redirect_names_cause (w : World) (cfg : Config)
    (bad_signature mismatch : Request) :
  csrf_rejected (cookieState_of w bad_signature) (state (query bad_signature)) = true ->
  csrf_rejected (cookieState_of w mismatch) (state (query mismatch)) = true ->
  valid (cookieState_of w bad_signature) = false ->
  valid (cookieState_of w mismatch) = true ->
  let l1 := error_location cfg "CSRF validation failed: Invalid state cookie signature." in
  let l2 := error_location cfg "CSRF validation failed: State parameter mismatch or missing." in
  redirects (trace (callbackRoutes w cfg bad_signature)) = [l1]
  /\ redirects (trace (callbackRoutes w cfg mismatch)) = [l2]
  /\ Url.location_path l1 = Url.location_path l2
  /\ Url.location_param "origin" l1 = Url.location_param "origin" l2
  /\ errorRoutes_message l1 = Some "CSRF validation failed: Invalid state cookie signature."
  /\ errorRoutes_message l2 = Some "CSRF validation failed: State parameter mismatch or missing."
  /\ l1 <> l2
  /\ logged (trace (callbackRoutes w cfg bad_signature))
     = [Log LWarn [] "Invalid OAuth state parameter or cookie mismatch. Potential CSRF attack."]
  /\ logged (trace (callbackRoutes w cfg mismatch))
     = logged (trace (callbackRoutes w cfg bad_signature)).
Proof.
  intros R1 R2 V1 V2 l1 l2.
  rewrite (callback_csrf_rejected w cfg _ R1), (callback_csrf_rejected w cfg _ R2).
  unfold csrf_failure_trace, csrf_message. rewrite V1, V2.
  destruct (error_location_read cfg "CSRF validation failed: Invalid state cookie signature.")
    as (P1 & _ & O1).
  destruct (error_location_read cfg "CSRF validation failed: State parameter mismatch or missing.")
    as (P2 & _ & O2).
  fold l1 l2 in P1, P2, O1, O2.
  split; [reflexivity|]. split; [reflexivity|].
  split; [rewrite P1, P2; reflexivity|].
  split; [rewrite O1, O2; reflexivity|].
  split; [apply error_location_message; discriminate|].
  split; [apply error_location_message; discriminate|].
  split; [intros E; apply error_location_inj in E; discriminate|].
  split; reflexivity.
Qed.

Lemma csrf_failure_redirect_names_cause_witness :
  redirects (trace (callbackRoutes Scenario.w_write Scenario.cfg Scenario.forged_request))
  = [error_location Scenario.cfg "CSRF validation failed: Invalid state cookie signature."]
  /\ redirects (trace (callbackRoutes Scenario.w_write Scenario.cfg Scenario.mismatch_request))
     = [error_location Scenario.cfg
          "CSRF validation failed: State parameter mismatch or missing."].
Proof.
  pose proof (csrf_failure_redirect_names_cause Scenario.w_write Scenario.cfg
                Scenario.forged_request Scenario.mismatch_request
                eq_refl eq_refl eq_refl eq_refl) as H.
  cbv zeta in H. destruct H as (H1 & H2 & _). split; [exact H1 | exact H2].
Defined.

(** ** The state-validation properties on the concrete deployment *)

Lemma state_validation_witness :
  csrf_rejected (cookieState_of Scenario.w_write Scenario.no_cookie_request)
                (state (query Scenario.no_cookie_request)) = true
  /\ csrf_rejected (cookieState_of Scenario.w_write Scenario.good_request)
                   (state (query Scenario.good_request)) = false.
Proof.
  split.
  - destruct (state_validation Scenario.w_write Scenario.cfg eq_refl
                Scenario.no_cookie_request) as (H & _).
    apply H. left. reflexivity.
  - reflexivity.
Defined.

Lemma absent_cookie_reported_as_invalid_signature_witness :
  redirects (trace (callbackRoutes Scenario.w_write Scenario.cfg Scenario.no_cookie_request))
  = [error_location Scenario.cfg "CSRF validation failed: Invalid state cookie signature."].
Proof.
  destruct (absent_cookie_reported_as_invalid_signature Scenario.w_write Scenario.cfg
              eq_refl Scenario.no_cookie_request eq_refl) as (H & _).
  rewrite H. reflexivity.
Defined.

(** C4, counterexample: the state of a callback that passed validation
    and went through to the success redirect, its cookie cleared on the way,
    is accepted once more when a second callback presents the same signed
    cookie and state: the second flow also passes the state check, exchanges
    its code and ends in the success redirect. *)
Lemma state_accepted_on_second_attempt :
  let w := Scenario.w_write in
  let cfg := Scenario.cfg in
  cookies_oauth_state Scenario.replayed_request = cookies_oauth_state Scenario.good_request
  /\ state (query Scenario.replayed_request) = state (query Scenario.good_request)
  /\ csrf_rejected (cookieState_of w Scenario.good_request)
                   (state (query Scenario.good_request)) = false
  /\ In (ClearCookie "oauth_state" "/") (trace (callbackRoutes w cfg Scenario.good_request))
  /\ redirects (trace (callbackRoutes w cfg Scenario.good_request))
     = [success_location cfg "gho_T0k3n"]
  /\ csrf_rejected (cookieState_of w Scenario.replayed_request)
                   (state (query Scenario.replayed_request)) = false
  /\ In (Log LInfo [] "OAuth state validated successfully.")
        (trace (callbackRoutes w cfg Scenario.replayed_request))
  /\ redirects (trace (callbackRoutes w cfg Scenario.replayed_request))
     = [success_location cfg "gho_T0k3n"].
Proof.
  cbv zeta. repeat split; try (vm_compute; reflexivity); vm_compute; tauto.
Qed.

Lemma state_cookie_cleared_on_every_branch_witness :
  jar_after (cookies_oauth_state Scenario.good_request)
            (trace (callbackRoutes Scenario.w_write Scenario.cfg Scenario.good_request))
  = None.
Proof.
  destruct (state_cookie_cleared_on_every_branch Scenario.w_write Scenario.cfg
              eq_refl Scenario.good_request) as (_ & H & _).
  exact H.
Defined.

(** ** After validation: provider error, missing code, the exchange *)

Section AfterValidation.

Variable w : World.
Variable cfg : Config.

Lemma reaches_exchange_intro (request : Request) (c : string) :
  csrf_rejected (cookieState_of w request) (state (query request)) = false ->
  Js.truthy (error (query request)) = false ->
  code (query request) = Some c ->
  Js.truthy (code (query request)) = true ->
  reaches_exchange w request c.
Proof.
  intros H1 H2 H3 H4. repeat split; try assumption.
  rewrite H3 in H4. simpl in H4. intros ->. discriminate.
Qed.

(** Whatever the provider answers, a callback that reaches the exchange
    starts with the same three events. *)
Lemma callback_exchange_prefix (request : Request) (c : string) :
  reaches_exchange w request c ->
  exists rest, trace (callbackRoutes w cfg request) = (exchange_prefix ++ rest)%list.
Proof.
  intros R.
  destruct (getToken w cfg c) as [t1 [T|e]] eqn:Ht.
  2:{ rewrite (callback_token_failed w cfg _ _ _ _ R Ht). eexists. reflexivity. }
  destruct (getGitHubUser_cases w T) as (l & r2 & Hu & _).
  destruct r2 as [u|].
  2:{ rewrite (callback_profile_failed w cfg _ _ _ _ _ R Ht Hu). eexists. reflexivity. }
  destruct (verifyUserPermission w cfg T (login u)) as [t3 r3] eqn:Hp.
  rewrite (callback_permission_checked w cfg _ _ _ _ _ _ _ _ R Ht Hu Hp).
  eexists. reflexivity.
Qed.

Lemma or_else_nonempty (o : option string) (d : string) :
  d <> "" -> Js.or_else o d <> "".
Proof.
  intros H. unfold Js.or_else. destruct o as [s|]; [|exact H].
  destruct (String.eqb s "") eqn:E; [exact H|]. apply String.eqb_neq. exact E.
Qed.

(** C9: once the state is validated, a provider [error] parameter sends
    the callback to the failure terminal with [error_description] as the
    message (the error route decodes exactly that text), or with a generic
    fallback when there is no description, whether or not a code is present
    and without any provider call; the flow fails for a missing
    authorization code exactly when neither [error] nor [code] is present. *)
Theorem provider_error_checked_before_code (request : Request) :
  csrf_rejected (cookieState_of w request) (state (query request)) = false ->
  let q := query request in
  let described := Js.or_else (error_description q) msg_provider_fallback in
  let code_missing :=
    [ClearCookie "oauth_state" "/";
     Log LInfo [] "OAuth state validated successfully.";
     Log LError [] "No authorization code received from GitHub.";
     Redirect (error_location cfg msg_code_missing)] in
  (Js.truthy (error q) = true ->
     outcome (callbackRoutes w cfg request) = Normal tt
     /\ redirects (trace (callbackRoutes w cfg request)) = [error_location cfg described]
     /\ provider_calls (trace (callbackRoutes w cfg request)) = []
     /\ Url.location_path (error_location cfg described) = "/error"
     /\ errorRoutes_message (error_location cfg described) = Some described
     /\ (forall d, error_description q = Some d -> d <> "" -> described = d)
     /\ (error_description q = None -> described = msg_provider_fallback))
  /\ (callbackRoutes w cfg request = (code_missing, Normal tt)
      <-> Js.truthy (error q) = false /\ Js.truthy (code q) = false)
  /\ errorRoutes_message (error_location cfg msg_code_missing)
     = Some "Authorization code missing from GitHub callback.".
Proof.
  intros Hcsrf q described code_missing. split; [|split].
  - intros He. rewrite (callback_provider_error w cfg request Hcsrf He).
    fold q described.
    split; [reflexivity|]. split; [reflexivity|]. split; [reflexivity|].
    split; [apply error_location_read|].
    split; [apply error_location_message, or_else_nonempty; discriminate|].
    split.
    + intros d Hd Hne. subst described. rewrite Hd. unfold Js.or_else.
      apply String.eqb_neq in Hne. rewrite Hne. reflexivity.
    + intros Hd. subst described. rewrite Hd. reflexivity.
  - split.
    + intros E. destruct (Js.truthy (error q)) eqn:He.
      { rewrite (callback_provider_error w cfg request Hcsrf He) in E.
        exfalso. subst code_missing. injection E as E _. discriminate E. }
      split; [reflexivity|].
      destruct (Js.truthy (code q)) eqn:Hc; [|reflexivity]. exfalso.
      destruct (code q) as [c|] eqn:Ec; [|discriminate].
      assert (R : reaches_exchange w request c)
        by (apply reaches_exchange_intro;
            [exact Hcsrf | exact He | exact Ec | fold q; rewrite Ec; exact Hc]).
      destruct (callback_exchange_prefix request c R) as (rest & P).
      rewrite E in P. subst code_missing. simpl in P. discriminate P.
    + intros [He Hc]. apply callback_code_missing; assumption.
  - apply error_location_message. discriminate.
Qed.

(** C5: with a state that passes validation, no provider error, a code
    present, a token exchange that returns [T], a profile fetch that returns
    an identity and a permission check that finds the access sufficient, the
    callback redirects to [/success] with [token] = [T] and [origin] = the
    configured client-facing origin. *)
Theorem callback_success (request : Request) (c T : string) (u : GitHubUser) :
  csrf_rejected (cookieState_of w request) (state (query request)) = false ->
  Js.truthy (error (query request)) = false ->
  code (query request) = Some c ->
  Js.truthy (code (query request)) = true ->
  outcome (getToken w cfg c) = Normal T ->
  outcome (getGitHubUser w T) = Normal (Some u) ->
  outcome (verifyUserPermission w cfg T (login u)) = Normal true ->
  outcome (callbackRoutes w cfg request) = Normal tt
  /\ redirects (trace (callbackRoutes w cfg request)) = [success_location cfg T]
  /\ Url.location_path (success_location cfg T) = "/success"
  /\ Url.location_param "token" (success_location cfg T) = Some T
  /\ Url.location_param "origin" (success_location cfg T) = Some (frontendUrl cfg).
Proof.
  intros H1 H2 H3 H4 Ht Hu Hp.
  pose proof (reaches_exchange_intro request c H1 H2 H3 H4) as R.
  destruct (getToken_cases w cfg c) as (args & r1 & Et).
  rewrite Et in Ht. simpl in Ht. subst r1.
  destruct (getGitHubUser_cases w T) as (l & r2 & Eu & Rl & _).
  rewrite Eu in Hu. simpl in Hu. injection Hu as ->.
  destruct (verifyUserPermission_cases w cfg T (login u)) as (t3 & r3 & Ep & R3 & _).
  rewrite Ep in Hp. simpl in Hp. subst r3.
  rewrite (callback_permission_checked w cfg _ _ _ _ _ _ _ _ R Et Eu Ep).
  split; [reflexivity|]. split; [|apply success_location_read].
  unfold trace, fst.
  assert (Ra : redirects (map ConsoleError args) = []) by (clear; induction args; auto).
  simpl. rewrite !redirects_app, Ra. simpl.
  destruct l; simpl in Rl; try discriminate; simpl; rewrite redirects_app, R3; reflexivity.
Qed.

(** C7: when the token endpoint answers with a non-success response or the
    network call fails (the OAuth client rejects), or the payload's access
    token is not a string, [getToken] raises its token-exchange error; the
    callback catches it and answers with the internal-failure redirect. No
    thrown value leaves the callback, here or on any other request, and the
    provider was asked once. *)
Theorem token_exchange_failure (request : Request) (c : string) :
  csrf_rejected (cookieState_of w request) (state (query request)) = false ->
  Js.truthy (error (query request)) = false ->
  code (query request) = Some c ->
  Js.truthy (code (query request)) = true ->
  (oauthClient_getToken w (tokenParams_of cfg c) = TokenResolved TokenNotString
   \/ exists e, oauthClient_getToken w (tokenParams_of cfg c) = TokenRejected e) ->
  (exists m, outcome (getToken w cfg c)
             = Throw (ThrownError ("Failed to obtain access token from GitHub: " ++ m)))
  /\ outcome (callbackRoutes w cfg request) = Normal tt
  /\ redirects (trace (callbackRoutes w cfg request)) = [error_location cfg msg_internal]
  /\ Url.location_path (error_location cfg msg_internal) = "/error"
  /\ provider_calls (trace (callbackRoutes w cfg request))
     = [TokenRequest (tokenParams_of cfg c)]
  /\ (forall any : Request, outcome (callbackRoutes w cfg any) = Normal tt).
Proof.
  intros H1 H2 H3 H4 Hfail.
  pose proof (reaches_exchange_intro request c H1 H2 H3 H4) as R.
  destruct (getToken_failed w cfg c Hfail) as (m & args & Et).
  split; [exists m; rewrite Et; reflexivity|].
  rewrite (callback_token_failed w cfg _ _ _ _ R Et).
  split; [reflexivity|]. split; [reflexivity|].
  split; [apply error_location_read|]. split; [reflexivity|].
  intros any. destruct (callback_shape w cfg any) as (rest & url & E & _).
  rewrite E. reflexivity.
Qed.

(** C6: on a successful (2xx) answer of the permission endpoint the check
    returns [true] exactly when the permission field is "admin", "write" or
    "maintain", hence [false] for "read", "none" and any other string; on a
    404 it returns [false] and raises nothing. *)
Theorem permission_classification (tok username : string) (r : Response) :
  Js.includes (repo (github cfg)) "/" = true ->
  fetch w (permission_request_url cfg username) (github_headers tok) = FetchResolved r ->
  (forall data,
     ok r = true -> json_permission w (text r) = Normal data ->
     exists b,
       outcome (verifyUserPermission w cfg tok username) = Normal b
       /\ (b = true <-> permission data = "admin" \/ permission data = "write"
                        \/ permission data = "maintain")
       /\ (permission data = "read" \/ permission data = "none" -> b = false))
  /\ (status r = 404%Z -> outcome (verifyUserPermission w cfg tok username) = Normal false).
Proof.
  intros Hrepo Hf. split.
  - intros data Hok Hj.
    exists (Js.array_includes ["admin"; "write"; "maintain"] (permission data)).
    split; [|split].
    + unfold verifyUserPermission. rewrite Hrepo. run.
      fold (permission_request_url cfg username). rewrite Hf. run. rewrite Hok. run.
      rewrite Hj. reflexivity.
    + unfold Js.array_includes. simpl. rewrite !orb_true_iff, !String.eqb_eq.
      intuition discriminate.
    + intros [-> | ->]; reflexivity.
  - intros H404.
    apply verifyUserPermission_other_status with (r := r); try assumption.
    unfold ok. rewrite H404. reflexivity.
Qed.

(** A non-success permission answer, 404 or not, ends in the
    access-denied redirect: the error raised for the other statuses never
    reaches the callback. *)
Lemma callback_other_status_denied (request : Request) (c T : string) (u : GitHubUser)
    (r : Response) :
  reaches_exchange w request c ->
  outcome (getToken w cfg c) = Normal T ->
  outcome (getGitHubUser w T) = Normal (Some u) ->
  Js.includes (repo (github cfg)) "/" = true ->
  fetch w (permission_request_url cfg (login u)) (github_headers T) = FetchResolved r ->
  ok r = false ->
  redirects (trace (callbackRoutes w cfg request)) = [error_location cfg msg_access_denied].
Proof.
  intros R Ht Hu Hrepo Hf Hok.
  destruct (getToken_cases w cfg c) as (args & r1 & Et).
  rewrite Et in Ht. simpl in Ht. subst r1.
  destruct (getGitHubUser_cases w T) as (l & r2 & Eu & Rl & _).
  rewrite Eu in Hu. simpl in Hu. injection Hu as ->.
  destruct (verifyUserPermission_answers w cfg T (login u) Hrepo) as (logs & b & Ep & R3 & _).
  pose proof (verifyUserPermission_other_status w cfg T (login u) r Hrepo Hf Hok) as Hb.
  rewrite Ep in Hb. simpl in Hb. injection Hb as ->.
  rewrite (callback_permission_checked w cfg _ _ _ _ _ _ _ _ R Et Eu Ep).
  assert (Ra : redirects (map ConsoleError args) = []) by (clear; induction args; auto).
  unfold trace, fst. simpl. rewrite !redirects_app, Ra. simpl.
  destruct l; simpl in Rl; try discriminate; simpl; rewrite redirects_app, R3; reflexivity.
Qed.

End AfterValidation.

(** ** Configuration loading and the resource name *)

Section Startup.

Variable w : World.
Variable env : gmap string string.

Lemma getConfigValue_default (key d : string) :
  getConfigValue env key (Some d) = ([], Normal (Js.or_else (env !! key) d)).
Proof.
  unfold getConfigValue, Js.truthy, Js.or_else, Js.tmpl.
  destruct (env !! key) as [v|]; [|reflexivity].
  destruct (String.eqb v ""); reflexivity.
Qed.

Lemma getConfigValue_required (key : string) :
  Js.truthy (env !! key) = true ->
  getConfigValue env key None = ([], Normal (Js.tmpl (env !! key))).
Proof. intros H. unfold getConfigValue. rewrite H. reflexivity. Qed.

Lemma getConfigValue_missing (key : string) :
  Js.truthy (env !! key) = false ->
  outcome (getConfigValue env key None)
  = Throw (ThrownError ("Missing environment variable: " ++ key
                        ++ " and no default value provided.")).
Proof. intros H. unfold getConfigValue. rewrite H. reflexivity. Qed.

(** Loading succeeds as soon as the five required variables are set and
    non-empty; the resource name is taken as it is. *)
Lemma config_loads :
  (forall key, In key required_variables -> Js.truthy (env !! key) = true) ->
  exists cfg,
    config w env = ([], Normal cfg)
    /\ repo (github cfg) = Js.tmpl (env !! "GITHUB_REPO")
    /\ frontendUrl cfg = Js.tmpl (env !! "FRONTEND_URL").
Proof.
  intros H. unfold config.
  rewrite !getConfigValue_default.
  rewrite !getConfigValue_required by (apply H; simpl; tauto).
  run. eexists. split; [reflexivity|]. split; reflexivity.
Qed.

End Startup.

(** C8, counterexample: with a resource name that has no separator the
    configuration loads, so the process starts; the defect shows at request
    time, where the permission check raises and the flow ends in the
    internal-failure redirect. *)
Lemma malformed_repo_passes_startup :
  let cfg := Scenario.cfg_with_repo "norepo" in
  Js.includes "norepo" "/" = false
  /\ config Scenario.w_write (Scenario.env_with_repo "norepo") = ([], Normal cfg)
  /\ verifyUserPermission Scenario.w_write cfg "gho_T0k3n" "octocat"
     = ([], Throw (ThrownError "Invalid GITHUB_REPO format. Expected owner/repo."))
  /\ redirects (trace (callbackRoutes Scenario.w_write cfg Scenario.good_request))
     = [error_location cfg msg_internal].
Proof. cbv zeta. repeat split; vm_compute; reflexivity. Qed.

(** C8, amended: a resource name without the separator is not rejected at
    startup, where loading only requires the variable to be set and
    non-empty; it is a per-request condition: in every flow that reaches the
    permission check, [verifyUserPermission] raises "Invalid GITHUB_REPO
    format. Expected owner/repo." before any request to the permission
    endpoint, and the callback answers with the internal-failure redirect. *)
Theorem repo_format_checked_per_request (w : World) (env : gmap string string) :
  (forall key, In key required_variables -> Js.truthy (env !! key) = true) ->
  exists cfg,
    config w env = ([], Normal cfg)
    /\ repo (github cfg) = Js.tmpl (env !! "GITHUB_REPO")
    /\ (Js.includes (repo (github cfg)) "/" = false ->
        (forall tok username,
           verifyUserPermission w cfg tok username
           = ([], Throw (ThrownError "Invalid GITHUB_REPO format. Expected owner/repo.")))
        /\ (forall request c T u,
              reaches_exchange w request c ->
              outcome (getToken w cfg c) = Normal T ->
              outcome (getGitHubUser w T) = Normal (Some u) ->
              outcome (callbackRoutes w cfg request) = Normal tt
              /\ redirects (trace (callbackRoutes w cfg request))
                 = [error_location cfg msg_internal]
              /\ provider_calls (trace (callbackRoutes w cfg request))
                 = [TokenRequest (tokenParams_of cfg c);
                    FetchRequest user_url (github_headers T)])).
Proof.
  intros H. destruct (config_loads w env H) as (cfg & Hc & Hr & _).
  exists cfg. split; [exact Hc|]. split; [exact Hr|].
  intros Hbad. split.
  - intros tok username. apply verifyUserPermission_bad_repo. exact Hbad.
  - intros request c T u R Ht Hu.
    destruct (getToken_cases w cfg c) as (args & r1 & Et).
    rewrite Et in Ht. simpl in Ht. subst r1.
    destruct (getGitHubUser_cases w T) as (l & r2 & Eu & Rl & Pl).
    rewrite Eu in Hu. simpl in Hu. injection Hu as ->.
    rewrite (callback_permission_checked w cfg _ _ _ _ _ _ _ _ R Et Eu
               (verifyUserPermission_bad_repo w cfg T (login u) Hbad)).
    assert (Ra : redirects (map ConsoleError args) = []
                 /\ provider_calls (map ConsoleError args) = [])
      by (clear; induction args; simpl; auto).
    destruct Ra as [Ra Pa].
    split; [reflexivity|]. unfold trace, fst. simpl.
    rewrite !redirects_app, !provider_calls_app, Ra, Pa. simpl.
    destruct l; simpl in Rl, Pl; try discriminate; split; reflexivity.
Qed.

Lemma repo_format_checked_per_request_witness :
  exists cfg,
    config Scenario.w_write (Scenario.env_with_repo "norepo") = ([], Normal cfg)
    /\ repo (github cfg) = "norepo".
Proof.
  destruct (repo_format_checked_per_request Scenario.w_write
              (Scenario.env_with_repo "norepo")) as (cfg & Hc & Hr & _).
  - intros key Hk. simpl in Hk.
    destruct Hk as [<- | [<- | [<- | [<- | [<- | []]]]]]; vm_compute; reflexivity.
  - exists cfg. split; [exact Hc|]. rewrite Hr. vm_compute. reflexivity.
Defined.

(** ** A permission answer other than 404 *)

(** C1, on the code: the permission endpoint answers 500; the error
    [verifyUserPermission] raises for it is caught by the operation's own
    [catch], the operation answers [false], and the callback reports
    insufficient permissions instead of the internal failure. *)
Theorem status_500_reported_as_access_denied :
  let w := Scenario.w_500 in
  let cfg := Scenario.cfg in
  fetch w (permission_request_url cfg "octocat") (github_headers "gho_T0k3n")
  = FetchResolved {| status := 500; text := "Internal Server Error" |}
  /\ outcome (verifyUserPermission w cfg "gho_T0k3n" "octocat") = Normal false
  /\ In (Log LError
           [("error", LStr "Failed to verify user permission. Status: 500");
            ("username", LStr "octocat"); ("repo", LStr "octo/site")]
           "Error verifying GitHub user permission")
        (trace (verifyUserPermission w cfg "gho_T0k3n" "octocat"))
  /\ redirects (trace (callbackRoutes w cfg Scenario.good_request))
     = [error_location cfg msg_access_denied]
  /\ error_location cfg msg_access_denied <> error_location cfg msg_internal.
Proof.
  cbv zeta. split; [reflexivity|]. split; [vm_compute; reflexivity|].
  split; [vm_compute; tauto|]. split; [vm_compute; reflexivity|].
  intros E. apply error_location_inj in E. discriminate.
Qed.

(** ** The properties after validation on the concrete deployment *)

Lemma provider_error_checked_before_code_witness :
  redirects (trace (callbackRoutes Scenario.w_write Scenario.cfg Scenario.denied_request))
  = [error_location Scenario.cfg "User denied"].
Proof.
  destruct (provider_error_checked_before_code Scenario.w_write Scenario.cfg
              Scenario.denied_request eq_refl) as (H & _).
  destruct (H eq_refl) as (_ & E & _). exact E.
Defined.

Lemma callback_success_witness :
  redirects (trace (callbackRoutes Scenario.w_write Scenario.cfg Scenario.good_request))
  = [success_location Scenario.cfg "gho_T0k3n"].
Proof.
  destruct (callback_success Scenario.w_write Scenario.cfg Scenario.good_request
              "abc123" "gho_T0k3n" Scenario.octocat
              eq_refl eq_refl eq_refl eq_refl eq_refl eq_refl eq_refl) as (_ & E & _).
  exact E.
Defined.

Lemma token_exchange_failure_witness :
  redirects (trace (callbackRoutes Scenario.w_token_401 Scenario.cfg Scenario.good_request))
  = [error_location Scenario.cfg msg_internal]
  /\ provider_calls
       (trace (callbackRoutes Scenario.w_token_401 Scenario.cfg Scenario.good_request))
     = [TokenRequest (tokenParams_of Scenario.cfg "abc123")].
Proof.
  destruct (token_exchange_failure Scenario.w_token_401 Scenario.cfg Scenario.good_request
              "abc123" eq_refl eq_refl eq_refl eq_refl
              (or_intror (ex_intro _ (ThrownError "Response Error: 401 Unauthorized") eq_refl)))
    as (_ & _ & E & _ & P & _).
  split; [exact E | exact P].
Defined.

Lemma permission_classification_witness :
  outcome (verifyUserPermission Scenario.w_write Scenario.cfg "gho_T0k3n" "octocat")
  = Normal true.
Proof.
  destruct (permission_classification Scenario.w_write Scenario.cfg "gho_T0k3n" "octocat"
              {| status := 200; text := "permission:write" |} eq_refl eq_refl) as (H & _).
  destruct (H {| permission := "write"; role_name := "write"; user := Scenario.octocat |}
              eq_refl eq_refl) as (b & E & Hb & _).
  rewrite E. f_equal. apply Hb. right. left. reflexivity.
Defined.

(** * Further properties of the code *)

(** ** Configuration loading *)

Section ConfigFacts.

Variable w : World.

Lemma getConfigValue_missing_throws (env : gmap string string) (key : string) :
  Js.truthy (env !! key) = false ->
  getConfigValue env key None
  = ([], Throw (ThrownError ("Missing environment variable: " ++ key
                             ++ " and no default value provided."))).
Proof. intros H. unfold getConfigValue. rewrite H. reflexivity. Qed.

(** Loading either succeeds or stops at the first required variable, in
    reading order, that has no usable value. *)
Lemma config_outcome (env : gmap string string) :
  match first_missing env with
  | Some key =>
      config w env
      = ([], Throw (ThrownError ("Missing environment variable: " ++ key
                                 ++ " and no default value provided.")))
  | None =>
      (forall key, In key required_variables -> Js.truthy (env !! key) = true)
      /\ exists cfg, config w env = ([], Normal cfg)
  end.
Proof.
  unfold first_missing, required_variables. simpl List.find.
  destruct (Js.truthy (env !! "GITHUB_CLIENT_ID")) eqn:H1; simpl negb; cbv iota.
  2:{ unfold config. rewrite !getConfigValue_default.
      rewrite (getConfigValue_missing_throws _ _ H1). reflexivity. }
  destruct (Js.truthy (env !! "GITHUB_CLIENT_SECRET")) eqn:H2; simpl negb; cbv iota.
  2:{ unfold config. rewrite !getConfigValue_default.
      rewrite (getConfigValue_required _ _ H1), (getConfigValue_missing_throws _ _ H2).
      reflexivity. }
  destruct (Js.truthy (env !! "GITHUB_CALLBACK_URL")) eqn:H3; simpl negb; cbv iota.
  2:{ unfold config. rewrite !getConfigValue_default.
      rewrite (getConfigValue_required _ _ H1), (getConfigValue_required _ _ H2),
        (getConfigValue_missing_throws _ _ H3). reflexivity. }
  destruct (Js.truthy (env !! "GITHUB_REPO")) eqn:H4; simpl negb; cbv iota.
  2:{ unfold config. rewrite !getConfigValue_default.
      rewrite (getConfigValue_required _ _ H1), (getConfigValue_required _ _ H2),
        (getConfigValue_required _ _ H3), (getConfigValue_missing_throws _ _ H4).
      reflexivity. }
  destruct (Js.truthy (env !! "FRONTEND_URL")) eqn:H5; simpl negb; cbv iota.
  2:{ unfold config. rewrite !getConfigValue_default.
      rewrite (getConfigValue_required _ _ H1), (getConfigValue_required _ _ H2),
        (getConfigValue_required _ _ H3), (getConfigValue_required _ _ H4),
        (getConfigValue_missing_throws _ _ H5). reflexivity. }
  assert (A : forall key, In key ["GITHUB_CLIENT_ID"; "GITHUB_CLIENT_SECRET";
                                  "GITHUB_CALLBACK_URL"; "GITHUB_REPO"; "FRONTEND_URL"] ->
                          Js.truthy (env !! key) = true).
  { intros key Hk. simpl in Hk.
    destruct Hk as [<- | [<- | [<- | [<- | [<- | []]]]]]; assumption. }
  split; [exact A|].
  destruct (config_loads w env A) as (cfg & E & _). exists cfg. exact E.
Qed.

(** What a loaded configuration holds for the two variables the flow
    depends on. *)
Lemma config_loaded (env : gmap string string) (cfg : Config) :
  config w env = ([], Normal cfg) ->
  (forall key, In key required_variables -> Js.truthy (env !! key) = true)
  /\ repo (github cfg) = Js.tmpl (env !! "GITHUB_REPO")
  /\ frontendUrl cfg = Js.tmpl (env !! "FRONTEND_URL")
  /\ frontendUrl cfg <> "".
Proof.
  intros H. pose proof (config_outcome env) as O.
  destruct (first_missing env) as [key|].
  { rewrite H in O. discriminate. }
  destruct O as [A _]. split; [exact A|].
  destruct (config_loads w env A) as (cfg' & E & Hr & Hf).
  rewrite H in E. injection E as <-. split; [exact Hr|]. split; [exact Hf|].
  rewrite Hf. specialize (A "FRONTEND_URL"). simpl in A.
  assert (T : Js.truthy (env !! "FRONTEND_URL") = true) by (apply A; tauto).
  destruct (env !! "FRONTEND_URL") as [v|]; [|discriminate].
  simpl in *. intros ->. discriminate.
Qed.

(** X1: loading the configuration fails exactly when a required variable
    is unset or empty, and the error then names the first such variable in
    the order the module reads them; variables with a default never make it
    fail. *)
Theorem config_reports_first_missing_variable (env : gmap string string) :
  match first_missing env with
  | Some key =>
      In key required_variables
      /\ Js.truthy (env !! key) = false
      /\ config w env
         = ([], Throw (ThrownError ("Missing environment variable: " ++ key
                                    ++ " and no default value provided.")))
  | None =>
      (forall key, In key required_variables -> Js.truthy (env !! key) = true)
      /\ exists cfg, config w env = ([], Normal cfg)
  end.
Proof.
  pose proof (config_outcome env) as O.
  destruct (first_missing env) as [key|] eqn:F; [|exact O].
  unfold first_missing in F. apply List.find_some in F as [Hin Hf].
  split; [exact Hin|]. split; [|exact O].
  apply negb_true_iff. exact Hf.
Qed.

(** X2: a variable set to a non-empty text is returned as it is, whatever
    the default; a variable set to the empty text is treated as if it were
    not set at all. *)
Theorem getConfigValue_of_set_variable (env : gmap string string)
    (key v : string) (defaultValue : option string) :
  getConfigValue (<[key := v]> env) key defaultValue
  = if String.eqb v "" then getConfigValue (delete key env) key defaultValue
    else ([], Normal v).
Proof.
  unfold getConfigValue. rewrite lookup_insert_eq, lookup_delete_eq.
  simpl. destruct (String.eqb v ""); reflexivity.
Qed.

(** X3: the default session secret is not refused in production: with
    [NODE_ENV] set to production and [SESSION_SECRET] unset or empty, the
    configuration loads and carries the built-in default secret. *)
Theorem production_accepts_default_session_secret (env : gmap string string) :
  (forall key, In key required_variables -> Js.truthy (env !! key) = true) ->
  env !! "NODE_ENV" = Some "production" ->
  Js.truthy (env !! "SESSION_SECRET") = false ->
  exists cfg,
    config w env = ([], Normal cfg)
    /\ nodeEnv cfg = "production"
    /\ sessionSecret cfg = "a_very_strong_secret_key_that_should_be_changed".
Proof.
  intros A Hn Hs. unfold config.
  rewrite !getConfigValue_default.
  rewrite !getConfigValue_required by (apply A; simpl; tauto).
  run. eexists. split; [reflexivity|]. simpl. rewrite Hn. split; [reflexivity|].
  unfold Js.or_else, Js.truthy in *.
  destruct (env !! "SESSION_SECRET") as [v|]; [|reflexivity].
  destruct (String.eqb v ""); [reflexivity|discriminate].
Qed.

(** X4: for every configuration that loads, the CORS plugin allows the
    configured client origin and nothing else; the branches that disable
    CORS or reflect any origin are never taken. *)
Theorem cors_allows_only_the_configured_origin (env : gmap string string) (cfg : Config) :
  config w env = ([], Normal cfg) ->
  corsPlugin cfg
  = [RegisterCors (OriginList [frontendUrl cfg]) ["GET"; "POST"; "OPTIONS"]
                  ["Content-Type"; "Authorization"] true;
     Core (Log LInfo []
       ("CORS configured. Allowed origins: " ++ frontendUrl cfg
        ++ ". Methods: GET, POST, OPTIONS. Credentials: true."))]
  /\ frontendUrl cfg = Js.tmpl (env !! "FRONTEND_URL").
Proof.
  intros H. destruct (config_loaded env cfg H) as (_ & _ & Hf & Hne).
  split; [|exact Hf]. unfold corsPlugin.
  apply String.eqb_neq in Hne. rewrite Hne. reflexivity.
Qed.

End ConfigFacts.

Lemma production_accepts_default_session_secret_witness :
  exists cfg,
    config Scenario.w_write
           (<["NODE_ENV" := "production"]> (Scenario.env_with_repo "octo/site"))
    = ([], Normal cfg)
    /\ sessionSecret cfg = "a_very_strong_secret_key_that_should_be_changed".
Proof.
  destruct (production_accepts_default_session_secret Scenario.w_write
              (<["NODE_ENV" := "production"]> (Scenario.env_with_repo "octo/site")))
    as (cfg & E & _ & S).
  - intros key Hk. simpl in Hk.
    destruct Hk as [<- | [<- | [<- | [<- | [<- | []]]]]]; vm_compute; reflexivity.
  - vm_compute. reflexivity.
  - vm_compute. reflexivity.
  - exists cfg. split; [exact E | exact S].
Defined.

Lemma cors_allows_only_the_configured_origin_witness :
  corsPlugin Scenario.cfg
  = [RegisterCors (OriginList ["https://cms.example"]) ["GET"; "POST"; "OPTIONS"]
                  ["Content-Type"; "Authorization"] true;
     Core (Log LInfo []
       "CORS configured. Allowed origins: https://cms.example. Methods: GET, POST, OPTIONS. Credentials: true.")].
Proof.
  destruct (cors_allows_only_the_configured_origin Scenario.w_write
              (Scenario.env_with_repo "octo/site") Scenario.cfg) as (E & _).
  - vm_compute. reflexivity.
  - rewrite E. reflexivity.
Defined.

(** ** The provider-facing operations, characterised *)

Lemma append_empty_r (s : string) : s ++ "" = s.
Proof.
  induction s as [|c s IH]; [reflexivity|].
  change (String c (s ++ "") = String c s). f_equal. exact IH.
Qed.

Lemma includes_separator (a b : string) : Js.includes (a ++ "/" ++ b) "/" = true.
Proof.
  induction a as [|c a IH]; [destruct b; reflexivity|].
  change (String.prefix "/" (String c (a ++ "/" ++ b))
          || Js.includes (a ++ "/" ++ b) "/" = true).
  rewrite IH. apply orb_true_r.
Qed.

Section OperationFacts.

Variable w : World.
Variable cfg : Config.

(** X5: the token exchange sends one request, carrying the code with the
    configured callback address and scope; it returns [s] exactly when the
    client resolves with the string [s] as access token, and whatever else
    happens it throws an [Error] whose message starts with "Failed to obtain
    access token from GitHub: " and continues with the message of the
    underlying error. *)
Theorem getToken_characterised (c : string) :
  provider_calls (trace (getToken w cfg c)) = [TokenRequest (tokenParams_of cfg c)]
  /\ TokenParams.code (tokenParams_of cfg c) = c
  /\ TokenParams.redirect_uri (tokenParams_of cfg c) = callbackUrl (github cfg)
  /\ (forall s, outcome (getToken w cfg c) = Normal s
                <-> oauthClient_getToken w (tokenParams_of cfg c)
                    = TokenResolved (TokenString s))
  /\ (forall e, outcome (getToken w cfg c) = Throw e ->
                exists m, e = ThrownError ("Failed to obtain access token from GitHub: " ++ m))
  /\ (forall m, oauthClient_getToken w (tokenParams_of cfg c) = TokenRejected (ThrownError m) ->
                outcome (getToken w cfg c)
                = Throw (ThrownError ("Failed to obtain access token from GitHub: " ++ m))).
Proof.
  unfold getToken. fold (tokenParams_of cfg c). run.
  destruct (oauthClient_getToken w (tokenParams_of cfg c)) as [[s|]|e]; run.
  - do 3 (split; [reflexivity|]). split; [|split].
    + intros s'. split; intros H; injection H as <-; reflexivity.
    + intros e H. discriminate.
    + intros m H. discriminate.
  - do 3 (split; [reflexivity|]). split; [|split].
    + intros s'. split; intros H; discriminate.
    + intros e H. injection H as <-. eauto.
    + intros m H. discriminate.
  - do 3 (split; [reflexivity|]). split; [|split].
    + intros s'. split; intros H; discriminate.
    + intros e' H. injection H as <-. destruct e as [m|s|[m|]|]; eauto.
    + intros m H. injection H as ->. reflexivity.
Qed.

(** X6: the profile fetch never throws and sends exactly one request, to
    the user endpoint with the token in the [Authorization] header; it
    returns a profile exactly when the provider answers with a success status
    and a body that parses, and [null] on a non-success status, a network
    failure or a malformed body. *)
Theorem getGitHubUser_characterised (tok : string) :
  (exists r, outcome (getGitHubUser w tok) = Normal r)
  /\ provider_calls (trace (getGitHubUser w tok))
     = [FetchRequest "https://api.github.com/user"
          [("Authorization", "token " ++ tok);
           ("Accept", "application/vnd.github.v3+json");
           ("User-Agent", "DecapCMS-GitHub-OAuth-App")]]
  /\ (forall u, outcome (getGitHubUser w tok) = Normal (Some u)
                <-> exists r, fetch w user_url (github_headers tok) = FetchResolved r
                              /\ ok r = true /\ json_profile w (text r) = Normal u).
Proof.
  unfold getGitHubUser. run. fold user_url.
  change [("Authorization", "token " ++ tok);
          ("Accept", "application/vnd.github.v3+json");
          ("User-Agent", "DecapCMS-GitHub-OAuth-App")] with (github_headers tok).
  destruct (fetch w user_url (github_headers tok)) as [r|e]; run.
  - destruct (ok r) eqn:Hok; run.
    + destruct (json_profile w (text r)) as [u|e] eqn:Hj; run.
      * split; [eauto|]. split; [reflexivity|]. intros u'. split.
        -- intros H. injection H as <-. exists r. auto.
        -- intros (r' & E & _ & J). injection E as <-. rewrite Hj in J.
           injection J as <-. reflexivity.
      * split; [eauto|]. split; [reflexivity|]. intros u'. split; [discriminate|].
        intros (r' & E & _ & J). injection E as <-. rewrite Hj in J. discriminate.
    + split; [eauto|]. split; [reflexivity|]. intros u'. split; [discriminate|].
      intros (r' & E & O & _). injection E as <-. congruence.
  - split; [eauto|]. split; [reflexivity|]. intros u'. split; [discriminate|].
    intros (r' & E & _). discriminate.
Qed.

(** X7: the permission check grants access exactly when the resource name
    is well formed, the provider answers the permission request with a
    success status and a body that parses, and the permission in it is
    "admin", "write" or "maintain". *)
Theorem verifyUserPermission_grants_iff (tok username : string) :
  outcome (verifyUserPermission w cfg tok username) = Normal true
  <-> Js.includes (repo (github cfg)) "/" = true
      /\ exists r data,
           fetch w (permission_request_url cfg username) (github_headers tok)
           = FetchResolved r
           /\ ok r = true
           /\ json_permission w (text r) = Normal data
           /\ (permission data = "admin" \/ permission data = "write"
               \/ permission data = "maintain").
Proof.
  assert (P : forall p, Js.array_includes ["admin"; "write"; "maintain"] p = true
                        <-> p = "admin" \/ p = "write" \/ p = "maintain").
  { intros p. unfold Js.array_includes. simpl.
    rewrite !orb_true_iff, !String.eqb_eq. intuition discriminate. }
  unfold verifyUserPermission.
  destruct (Js.includes (repo (github cfg)) "/") eqn:Hrepo; run.
  2:{ split; [discriminate|]. intros [H _]. discriminate. }
  fold (permission_request_url cfg username).
  destruct (fetch w (permission_request_url cfg username) (github_headers tok))
    as [r|e]; run.
  2:{ split; [discriminate|]. intros (_ & r & d & E & _). discriminate. }
  destruct (ok r) eqn:Hok; run.
  2:{ split.
      - destruct (status r =? 404)%Z; discriminate.
      - intros (_ & r' & d & E & O & _). injection E as <-. congruence. }
  destruct (json_permission w (text r)) as [data|e] eqn:Hj; run.
  2:{ split; [discriminate|]. intros (_ & r' & d & E & _ & J & _).
      injection E as <-. rewrite Hj in J. discriminate. }
  split.
  - intros H. injection H as H. split; [reflexivity|].
    exists r, data. repeat split; try assumption; try reflexivity. apply P. exact H.
  - intros (_ & r' & d & E & _ & J & Hp). injection E as <-.
    rewrite Hj in J. injection J as <-. f_equal. apply P. exact Hp.
Qed.

(** X8: the only error that leaves the permission check is the one for a
    resource name without a separator, raised before anything is sent; with
    a well-formed name the check sends exactly one request and answers with a
    boolean, which is [false] when the network call fails or the body does
    not parse. *)
Theorem verifyUserPermission_fails_closed (tok username : string) :
  (forall e, outcome (verifyUserPermission w cfg tok username) = Throw e ->
             Js.includes (repo (github cfg)) "/" = false
             /\ e = ThrownError "Invalid GITHUB_REPO format. Expected owner/repo."
             /\ trace (verifyUserPermission w cfg tok username) = [])
  /\ (Js.includes (repo (github cfg)) "/" = true ->
      provider_calls (trace (verifyUserPermission w cfg tok username))
      = [FetchRequest (permission_request_url cfg username) (github_headers tok)]
      /\ (forall e,
            fetch w (permission_request_url cfg username) (github_headers tok)
            = FetchRejected e ->
            outcome (verifyUserPermission w cfg tok username) = Normal false)
      /\ (forall r e,
            fetch w (permission_request_url cfg username) (github_headers tok)
            = FetchResolved r ->
            json_permission w (text r) = Throw e ->
            outcome (verifyUserPermission w cfg tok username) = Normal false)).
Proof.
  split.
  - intros e H. destruct (Js.includes (repo (github cfg)) "/") eqn:Hrepo.
    + destruct (verifyUserPermission_answers w cfg tok username Hrepo)
        as (logs & b & E & _). rewrite E in H. discriminate.
    + rewrite (verifyUserPermission_bad_repo w cfg tok username Hrepo) in H |- *.
      injection H as <-. auto.
  - intros Hrepo.
    destruct (verifyUserPermission_answers w cfg tok username Hrepo)
      as (logs & b & E & _ & P).
    split; [rewrite E; unfold trace, fst; simpl; rewrite P; reflexivity|].
    clear E. unfold verifyUserPermission. rewrite Hrepo. run.
    fold (permission_request_url cfg username). split.
    + intros e Hf. rewrite Hf. reflexivity.
    + intros r e Hf Hj. rewrite Hf. run. destruct (ok r); run.
      * rewrite Hj. reflexivity.
      * destruct (status r =? 404)%Z; reflexivity.
Qed.

(** X9: for a resource name [owner/name] the permission request goes to
    [/repos/owner/name/collaborators/username/permission]; segments after a
    second separator are dropped without complaint. *)
Theorem permission_request_url_of_repo (owner name username : string)
    (rest : option string) :
  Url.free_of "/" owner = true ->
  Url.free_of "/" name = true ->
  repo (github cfg)
  = owner ++ "/" ++ name ++ match rest with Some r => "/" ++ r | None => "" end ->
  Js.includes (repo (github cfg)) "/" = true
  /\ permission_request_url cfg username
     = "https://api.github.com/repos/" ++ owner ++ "/" ++ name
       ++ "/collaborators/" ++ username ++ "/permission".
Proof.
  intros Ho Hn Hr.
  assert (S : exists tl, Js.split "/" (repo (github cfg)) = owner :: name :: tl).
  { rewrite Hr.
    change (owner ++ "/" ++ name ++ match rest with Some r => "/" ++ r | None => "" end)
      with (owner ++ String "/" (name ++ match rest with
                                         | Some r => String "/" r
                                         | None => ""
                                         end)).
    rewrite UrlFacts.split_free_cons by exact Ho.
    destruct rest as [r|].
    - rewrite UrlFacts.split_free_cons by exact Hn. eauto.
    - rewrite append_empty_r, UrlFacts.split_free by exact Hn. eauto. }
  destruct S as (tl & S). split.
  - rewrite Hr. apply includes_separator.
  - unfold permission_request_url. rewrite S. reflexivity.
Qed.

End OperationFacts.

Lemma permission_request_url_of_repo_witness :
  permission_request_url (Scenario.cfg_with_repo "octo/site/extra") "octocat"
  = "https://api.github.com/repos/octo/site/collaborators/octocat/permission".
Proof.
  destruct (permission_request_url_of_repo (Scenario.cfg_with_repo "octo/site/extra")
              "octo" "site" "octocat" (Some "extra") eq_refl eq_refl eq_refl) as (_ & E).
  exact E.
Defined.

(** ** The callback as a whole *)

Section CallbackFacts.

Variable w : World.
Variable cfg : Config.

Lemma console_only (args : list (list LogVal)) :
  redirects (map ConsoleError args) = [] /\ provider_calls (map ConsoleError args) = [].
Proof. induction args; simpl; auto. Qed.

(** Every run of the callback takes one of the branches, redirects once, to
    the location of that branch, and has sent the requests of that branch. *)
Lemma callback_takes_branch (request : Request) :
  exists location calls,
    callback_branch w cfg request location calls
    /\ redirects (trace (callbackRoutes w cfg request)) = [location]
    /\ provider_calls (trace (callbackRoutes w cfg request)) = calls
    /\ outcome (callbackRoutes w cfg request) = Normal tt.
Proof.
  destruct (csrf_rejected (cookieState_of w request) (state (query request))) eqn:Hcsrf.
  { do 2 eexists. split; [apply branch_csrf; exact Hcsrf|].
    rewrite callback_csrf_rejected by exact Hcsrf. repeat split. }
  destruct (Js.truthy (error (query request))) eqn:Herr.
  { do 2 eexists. split; [apply branch_provider_error; assumption|].
    rewrite callback_provider_error by assumption. repeat split. }
  destruct (Js.truthy (code (query request))) eqn:Hcode.
  2:{ do 2 eexists. split; [apply branch_code_missing; assumption|].
      rewrite callback_code_missing by assumption. repeat split. }
  destruct (code (query request)) as [c|] eqn:Ec; [|discriminate].
  assert (R : reaches_exchange w request c).
  { repeat split; try assumption. simpl in Hcode. intros ->. discriminate. }
  destruct (getToken_cases w cfg c) as (args & r1 & Ht).
  destruct (console_only args) as [Ra Pa].
  destruct r1 as [T|e].
  2:{ do 2 eexists. split; [apply (branch_token_failed w cfg request c e R)|].
      { rewrite Ht. reflexivity. }
      rewrite (callback_token_failed w cfg _ _ _ _ R Ht). unfold trace, outcome, fst, snd.
      simpl. rewrite !redirects_app, !provider_calls_app, Ra, Pa.
      destruct e; repeat split. }
  destruct (getGitHubUser_cases w T) as (l & r2 & Hu & Rl & Pl).
  destruct r2 as [u|].
  2:{ do 2 eexists. split; [apply (branch_profile_failed w cfg request c T R)|].
      { rewrite Ht. reflexivity. } { rewrite Hu. reflexivity. }
      rewrite (callback_profile_failed w cfg _ _ _ _ _ R Ht Hu).
      unfold trace, outcome, fst, snd. simpl.
      rewrite !redirects_app, !provider_calls_app, Ra, Pa.
      destruct l; simpl in Rl, Pl; try discriminate; repeat split. }
  destruct (Js.includes (repo (github cfg)) "/") eqn:Hrepo.
  - destruct (verifyUserPermission_answers w cfg T (login u) Hrepo)
      as (logs & b & Hp & R3 & P3).
    do 2 eexists. split; [apply (branch_checked w cfg request c T u b R)|].
    { rewrite Ht. reflexivity. } { rewrite Hu. reflexivity. } { rewrite Hp. reflexivity. }
    rewrite (callback_permission_checked w cfg _ _ _ _ _ _ _ _ R Ht Hu Hp).
    unfold trace, outcome, fst, snd. simpl.
    rewrite !redirects_app, !provider_calls_app, Ra, Pa.
    destruct l; simpl in Rl, Pl; try discriminate; simpl;
      rewrite !redirects_app, !provider_calls_app, R3, P3;
      destruct b; repeat split.
  - pose proof (verifyUserPermission_bad_repo w cfg T (login u) Hrepo) as Hp.
    do 2 eexists. split; [apply (branch_bad_repo w cfg request c T u R)|].
    { rewrite Ht. reflexivity. } { rewrite Hu. reflexivity. } { exact Hrepo. }
    rewrite (callback_permission_checked w cfg _ _ _ _ _ _ _ _ R Ht Hu Hp).
    unfold trace, outcome, fst, snd. simpl.
    rewrite !redirects_app, !provider_calls_app, Ra, Pa.
    destruct l; simpl in Rl, Pl; try discriminate; repeat split.
Qed.

Lemma branch_location (request : Request) (location : string) (calls : list Event) :
  callback_branch w cfg request location calls ->
  (exists T, location = success_location cfg T)
  \/ (exists m, location = error_location cfg m /\ m <> ""
                /\ (In m fixed_failure_messages
                    \/ m = Js.or_else (error_description (query request))
                                      msg_provider_fallback)).
Proof.
  intros B. destruct B.
  - right. eexists. split; [reflexivity|]. unfold csrf_message.
    destruct (valid (cookieState_of w request)); (split; [discriminate|]);
      left; simpl; tauto.
  - right. eexists. split; [reflexivity|].
    split; [apply or_else_nonempty; discriminate | right; reflexivity].
  - right. eexists. split; [reflexivity|]. split; [discriminate|]. left. simpl. tauto.
  - right. eexists. split; [reflexivity|]. split; [discriminate|]. left. simpl. tauto.
  - right. eexists. split; [reflexivity|]. split; [discriminate|]. left. simpl. tauto.
  - right. eexists. split; [reflexivity|]. split; [discriminate|]. left. simpl. tauto.
  - destruct granted; [left; eauto|].
    right. eexists. split; [reflexivity|]. split; [discriminate|]. left. simpl. tauto.
Qed.

Lemma success_is_not_error (T m : string) : success_location cfg T <> error_location cfg m.
Proof.
  intros E. apply (f_equal Url.location_path) in E.
  destruct (success_location_read cfg T) as (P1 & _).
  destruct (error_location_read cfg m) as (P2 & _).
  rewrite P1, P2 in E. discriminate.
Qed.

(** X10: the callback redirects to the success terminal only when the
    state was validated, the exchange returned a token, the profile was
    fetched and the permission check answered [true]; the token in the
    redirect is the one the exchange returned. *)
Theorem success_redirect_requires_permission (request : Request) (location : string) :
  In location (redirects (trace (callbackRoutes w cfg request))) ->
  Url.location_path location = "/success" ->
  exists c T u,
    reaches_exchange w request c
    /\ outcome (getToken w cfg c) = Normal T
    /\ outcome (getGitHubUser w T) = Normal (Some u)
    /\ outcome (verifyUserPermission w cfg T (login u)) = Normal true
    /\ location = success_location cfg T.
Proof.
  intros Hin Hpath.
  destruct (callback_takes_branch request) as (l & calls & B & R & _).
  rewrite R in Hin. destruct Hin as [<- | []].
  assert (N : forall m, l <> error_location cfg m).
  { intros m ->. destruct (error_location_read cfg m) as (P & _).
    rewrite P in Hpath. discriminate. }
  destruct B; try (exfalso; eapply N; reflexivity).
  destruct granted; [|exfalso; eapply N; reflexivity].
  exists c, T, u. auto.
Qed.

(** X11: whatever the request and whatever the provider answers, the
    callback ends normally with exactly one redirect, to [/success] or to
    [/error], and that redirect carries the configured client origin in its
    [origin] parameter. *)
Theorem callback_always_redirects_with_origin (request : Request) :
  outcome (callbackRoutes w cfg request) = Normal tt
  /\ exists location,
       redirects (trace (callbackRoutes w cfg request)) = [location]
       /\ (Url.location_path location = "/success" \/ Url.location_path location = "/error")
       /\ Url.location_param "origin" location = Some (frontendUrl cfg).
Proof.
  destruct (callback_takes_branch request) as (l & calls & B & R & _ & O).
  split; [exact O|]. exists l. split; [exact R|].
  destruct (branch_location request l calls B) as [(T & ->) | (m & -> & _)].
  - destruct (success_location_read cfg T) as (P & _ & Or). auto.
  - destruct (error_location_read cfg m) as (P & _ & Or). auto.
Qed.

(** X12: the provider is contacted only after the state check has passed
    with no provider error and a code present, and the requests always come
    in the same order: the token exchange, then the profile, then the
    permission; a later one is never sent without the earlier ones. *)
Theorem provider_calls_follow_validation (request : Request) :
  (provider_calls (trace (callbackRoutes w cfg request)) = []
   <-> csrf_rejected (cookieState_of w request) (state (query request)) = true
       \/ Js.truthy (error (query request)) = true
       \/ Js.truthy (code (query request)) = false)
  /\ exists c T username,
       let token_request := TokenRequest (tokenParams_of cfg c) in
       let profile_request := FetchRequest user_url (github_headers T) in
       let permission_request :=
         FetchRequest (permission_request_url cfg username) (github_headers T) in
       In (provider_calls (trace (callbackRoutes w cfg request)))
          [[]; [token_request]; [token_request; profile_request];
           [token_request; profile_request; permission_request]].
Proof.
  destruct (callback_takes_branch request) as (l & calls & B & _ & P & _).
  rewrite P. clear P.
  assert (X : forall c, reaches_exchange w request c ->
                csrf_rejected (cookieState_of w request) (state (query request)) = true
                \/ Js.truthy (error (query request)) = true
                \/ Js.truthy (code (query request)) = false -> False).
  { intros c (H1 & H2 & H3 & H4) [H | [H | H]]; try congruence.
    rewrite H3 in H. simpl in H. apply negb_false_iff, String.eqb_eq in H. auto. }
  destruct B as [H | H1 H2 | H1 H2 H3 | c e R _ | c T R _ _ | c T u R _ _ _
                 | c T u granted R _ _ _].
  - split; [tauto|]. exists "", "", "". simpl. tauto.
  - split; [tauto|]. exists "", "", "". simpl. tauto.
  - split; [tauto|]. exists "", "", "". simpl. tauto.
  - split; [split; [discriminate | intros H; destruct (X c R H)]|].
    exists c, "", "". simpl. tauto.
  - split; [split; [discriminate | intros H; destruct (X c R H)]|].
    exists c, T, "". simpl. tauto.
  - split; [split; [discriminate | intros H; destruct (X c R H)]|].
    exists c, T, "". simpl. tauto.
  - split; [split; [discriminate | intros H; destruct (X c R H)]|].
    exists c, T, (login u). simpl. tauto.
Qed.

(** X13: the text a failure redirect carries is one of seven messages
    written in the handler, or the provider's own [error_description]; the
    message of an error thrown while the flow runs is never put in the
    redirect. The error route decodes exactly that text. *)
Theorem failure_redirect_messages (request : Request) (location : string) :
  In location (redirects (trace (callbackRoutes w cfg request))) ->
  Url.location_path location = "/error" ->
  exists m,
    location = error_location cfg m
    /\ errorRoutes_message location = Some m
    /\ (In m fixed_failure_messages
        \/ (Js.truthy (error (query request)) = true
            /\ error_description (query request) = Some m)).
Proof.
  intros Hin Hpath.
  destruct (callback_takes_branch request) as (l & calls & B & R & _).
  rewrite R in Hin. destruct Hin as [<- | []].
  assert (S : forall T, l <> success_location cfg T).
  { intros T ->. destruct (success_location_read cfg T) as (P & _).
    rewrite P in Hpath. discriminate. }
  destruct B as [H | H1 H2 | H1 H2 H3 | c e R' _ | c T R' _ _ | c T u R' _ _ _
                 | c T u granted R' _ _ _].
  - eexists. split; [reflexivity|].
    split; [apply error_location_message; unfold csrf_message;
            destruct (valid (cookieState_of w request)); discriminate|].
    left. unfold csrf_message. destruct (valid (cookieState_of w request)); simpl; tauto.
  - eexists. split; [reflexivity|].
    split; [apply error_location_message, or_else_nonempty; discriminate|].
    unfold Js.or_else. destruct (error_description (query request)) as [d|].
    + destruct (String.eqb d ""); [left; simpl; tauto | right; auto].
    + left. simpl. tauto.
  - eexists. split; [reflexivity|].
    split; [apply error_location_message; discriminate | left; simpl; tauto].
  - eexists. split; [reflexivity|].
    split; [apply error_location_message; discriminate | left; simpl; tauto].
  - eexists. split; [reflexivity|].
    split; [apply error_location_message; discriminate | left; simpl; tauto].
  - eexists. split; [reflexivity|].
    split; [apply error_location_message; discriminate | left; simpl; tauto].
  - destruct granted; [exfalso; eapply S; reflexivity|].
    eexists. split; [reflexivity|].
    split; [apply error_location_message; discriminate | left; simpl; tauto].
Qed.

(** X14: when the profile cannot be fetched the flow stops there: the
    callback redirects with "Failed to fetch user profile from GitHub." and
    no permission request is sent. *)
Theorem profile_failure_stops_the_flow (request : Request) (c T : string) :
  reaches_exchange w request c ->
  outcome (getToken w cfg c) = Normal T ->
  outcome (getGitHubUser w T) = Normal None ->
  redirects (trace (callbackRoutes w cfg request))
  = [error_location cfg "Failed to fetch user profile from GitHub."]
  /\ provider_calls (trace (callbackRoutes w cfg request))
     = [TokenRequest (tokenParams_of cfg c); FetchRequest user_url (github_headers T)].
Proof.
  intros R Ht Hu.
  destruct (getToken_cases w cfg c) as (args & r1 & Et).
  rewrite Et in Ht. simpl in Ht. subst r1.
  destruct (getGitHubUser_cases w T) as (l & r2 & Eu & Rl & Pl).
  rewrite Eu in Hu. simpl in Hu. injection Hu as ->.
  destruct (console_only args) as [Ra Pa].
  rewrite (callback_profile_failed w cfg _ _ _ _ _ R Et Eu).
  unfold trace, fst. simpl.
  rewrite !redirects_app, !provider_calls_app, Ra, Pa.
  destruct l; simpl in Rl, Pl; try discriminate; split; reflexivity.
Qed.

End CallbackFacts.

Lemma success_redirect_requires_permission_witness :
  exists c T u,
    reaches_exchange Scenario.w_write Scenario.good_request c
    /\ outcome (getToken Scenario.w_write Scenario.cfg c) = Normal T
    /\ outcome (getGitHubUser Scenario.w_write T) = Normal (Some u)
    /\ outcome (verifyUserPermission Scenario.w_write Scenario.cfg T (login u)) = Normal true
    /\ success_location Scenario.cfg "gho_T0k3n" = success_location Scenario.cfg T.
Proof.
  apply (success_redirect_requires_permission Scenario.w_write Scenario.cfg
           Scenario.good_request (success_location Scenario.cfg "gho_T0k3n")).
  - vm_compute. left. reflexivity.
  - vm_compute. reflexivity.
Defined.

Lemma failure_redirect_messages_witness :
  exists m,
    error_location Scenario.cfg "User denied" = error_location Scenario.cfg m
    /\ errorRoutes_message (error_location Scenario.cfg "User denied") = Some m
    /\ (In m fixed_failure_messages
        \/ (Js.truthy (error (query Scenario.denied_request)) = true
            /\ error_description (query Scenario.denied_request) = Some m)).
Proof.
  apply (failure_redirect_messages Scenario.w_write Scenario.cfg Scenario.denied_request
           (error_location Scenario.cfg "User denied")).
  - vm_compute. left. reflexivity.
  - vm_compute. reflexivity.
Defined.

Lemma profile_failure_stops_the_flow_witness :
  let w := Scenario.world Scenario.token_ok
             (FetchResolved {| status := 401; text := "Bad credentials" |})
             (Scenario.perm 200 "permission:admin") in
  provider_calls (trace (callbackRoutes w Scenario.cfg Scenario.good_request))
  = [TokenRequest (tokenParams_of Scenario.cfg "abc123");
     FetchRequest user_url (github_headers "gho_T0k3n")].
Proof.
  cbv zeta.
  destruct (profile_failure_stops_the_flow
              (Scenario.world Scenario.token_ok
                 (FetchResolved {| status := 401; text := "Bad credentials" |})
                 (Scenario.perm 200 "permission:admin"))
              Scenario.cfg Scenario.good_request "abc123" "gho_T0k3n") as (_ & P).
  - repeat split; try reflexivity. discriminate.
  - reflexivity.
  - reflexivity.
  - exact P.
Defined.

(** ** The terminal routes *)

Section TerminalRoutes.

Variable cfg : Config.

(** X15: following the callback's success redirect, the success route
    serves the page when the token is non-empty; a success redirect with an
    empty token ends at the failure terminal with the "token not provided"
    message. *)
Theorem success_route_after_callback (T : string) :
  follow_to_success cfg (success_location cfg T)
  = if String.eqb T "" then
      ([Core (Log LError [] "Token missing in /success route query.");
        Core (Redirect (error_location cfg
           "Authentication successful, but token not provided to success handler."))],
       Normal tt)
    else
      ([Core (Log LInfo [] "Authentication successful, serving success.html page.");
        SendFile "success.html"],
       Normal tt).
Proof.
  unfold follow_to_success. destruct (success_location_read cfg T) as (_ & -> & _).
  unfold successRoutes, Js.truthy. destruct (String.eqb T ""); reflexivity.
Qed.

Lemma follow_error_location (m : string) :
  m <> "" ->
  follow_to_error (error_location cfg m)
  = ([Core (Log LWarn []
        ("Displaying error page with message: "
         ++ String double_quote (m ++ String double_quote "")));
      SendFile "error.html"],
     Normal tt).
Proof.
  intros H. unfold follow_to_error, errorRoutes.
  destruct (error_location_read cfg m) as (_ & -> & _).
  unfold Js.or_else at 1. rewrite encodeURIComponent_nonempty by exact H.
  rewrite UrlFacts.decodeURIComponent_encode. reflexivity.
Qed.

(** X16: every failure redirect the callback produces can be shown: the
    error route reached through it decodes the message without throwing,
    logs it and serves the error page. *)
Theorem error_route_after_callback (w : World) (request : Request) (location : string) :
  In location (redirects (trace (callbackRoutes w cfg request))) ->
  Url.location_path location = "/error" ->
  exists m,
    errorRoutes_message location = Some m
    /\ follow_to_error location
       = ([Core (Log LWarn []
             ("Displaying error page with message: "
              ++ String double_quote (m ++ String double_quote "")));
           SendFile "error.html"],
          Normal tt).
Proof.
  intros Hin Hpath.
  destruct (callback_takes_branch w cfg request) as (l & calls & B & R & _).
  rewrite R in Hin. destruct Hin as [<- | []].
  destruct (branch_location w cfg request l calls B) as [(T & ->) | (m & -> & Hm & _)].
  - destruct (success_location_read cfg T) as (P & _). rewrite P in Hpath. discriminate.
  - exists m. split; [apply error_location_message; exact Hm|].
    apply follow_error_location. exact Hm.
Qed.

End TerminalRoutes.

Lemma decodeURIComponent_trailing_percent_bounded (n : nat) :
  forall s, String.length s <= n -> Url.decodeURIComponent (s ++ "%") = None.
Proof.
  induction n as [|n IH]; intros s Hlen.
  - destruct s; [reflexivity | simpl in Hlen; lia].
  - destruct s as [|c t]; [reflexivity|].
    simpl in Hlen.
    change (String c t ++ "%") with (String c (t ++ "%")).
    cbn [Url.decodeURIComponent].
    destruct (Ascii.eqb c "%").
    + destruct t as [|h [|l t']]; [reflexivity | |].
      * simpl. destruct (Url.hex_value h); reflexivity.
      * change (String h (String l t') ++ "%") with (String h (String l (t' ++ "%"))).
        cbv iota. destruct (Url.hex_value h); [|reflexivity].
        destruct (Url.hex_value l); [|reflexivity].
        rewrite IH by (simpl in Hlen; lia). reflexivity.
    + rewrite IH by lia. reflexivity.
Qed.

(** X17: a message that ends in a percent sign makes the error route
    throw: [decodeURIComponent] rejects it before anything is logged or
    sent. *)
Theorem error_route_throws_on_trailing_percent (s : string) (query_message : option string) :
  errorRoutes (Some (s ++ "%")) query_message = ([], Throw (ThrownError "URI malformed")).
Proof.
  unfold errorRoutes.
  assert (E : Js.or_else (Some (s ++ "%"))
                (Js.or_else query_message "An unspecified error occurred.") = s ++ "%").
  { unfold Js.or_else at 1. destruct s; reflexivity. }
  rewrite E, (decodeURIComponent_trailing_percent_bounded (String.length s) s (le_n _)).
  reflexivity.
Qed.

Lemma error_route_after_callback_witness :
  exists m,
    errorRoutes_message (error_location Scenario.cfg "User denied") = Some m
    /\ follow_to_error (error_location Scenario.cfg "User denied")
       = ([Core (Log LWarn []
             ("Displaying error page with message: "
              ++ String double_quote (m ++ String double_quote "")));
           SendFile "error.html"],
          Normal tt).
Proof.
  apply (error_route_after_callback Scenario.cfg Scenario.w_write Scenario.denied_request
           (error_location Scenario.cfg "User denied")).
  - vm_compute. left. reflexivity.
  - vm_compute. reflexivity.
Defined.

(** ** The entry route *)

Lemma to_hex_length (bytes : list ascii) :
  String.length (to_hex bytes) = 2 * length bytes.
Proof. induction bytes as [|b rest IH]; simpl; [reflexivity|]. rewrite IH. lia. Qed.

Lemma to_hex_digits (bytes : list ascii) :
  Forall (fun c => In c (list_ascii_of_string "0123456789abcdef"))
         (list_ascii_of_string (to_hex bytes)).
Proof.
  induction bytes as [|b rest IH]; [constructor|].
  change (list_ascii_of_string (to_hex (b :: rest)))
    with (hex_digit_lower (N_of_ascii b / 16)
          :: hex_digit_lower (N_of_ascii b mod 16)
          :: list_ascii_of_string (to_hex rest)).
  constructor; [|constructor; [|exact IH]];
    destruct b as [[] [] [] [] [] [] [] []]; vm_compute; tauto.
Qed.

Section EntryRoute.

Variable aw : AuthWorld.
Variable cfg : Config.

Lemma authRoutes_sets_cookie (bytes : list ascii) :
  randomBytes aw 16 = Normal bytes ->
  exists rest,
    effects (authRoutes aw cfg)
    = SetCookie "oauth_state" (to_hex bytes) (state_cookie_options cfg) :: rest.
Proof.
  intros H. unfold authRoutes, getAuthorizationUrl. rewrite H. simpl.
  destruct (oauthClient_authorizeURL aw _) as [url|e]; simpl; [eauto|].
  destruct e; simpl; eauto.
Qed.

(** X18: the entry route always ends normally with exactly one redirect.
    It redirects to the provider only with the address built for the state it
    has just stored in the [oauth_state] cookie (signed, http-only, five
    minutes, [secure] exactly in production), the cookie being set first;
    when the random source or the address builder throws it redirects to the
    failure terminal with "Failed to initiate authentication." instead. *)
Theorem auth_route_outcome :
  completion (authRoutes aw cfg) = Normal tt
  /\ match randomBytes aw 16 with
     | Throw _ =>
         effect_redirects (effects (authRoutes aw cfg))
         = [error_location cfg "Failed to initiate authentication."]
     | Normal bytes =>
         let cookie :=
           SetCookie "oauth_state" (to_hex bytes)
             {| path := "/"; httpOnly := true;
                secure := String.eqb (nodeEnv cfg) "production";
                signed := true; maxAge := 300; sameSite := "lax" |} in
         exists rest,
           effects (authRoutes aw cfg) = cookie :: rest
           /\ match oauthClient_authorizeURL aw
                      {| AuthorizeParams.redirect_uri := callbackUrl (github cfg);
                         AuthorizeParams.scope := scope (github cfg);
                         AuthorizeParams.state := to_hex bytes |} with
              | Normal url => effect_redirects rest = [url]
              | Throw _ =>
                  effect_redirects rest
                  = [error_location cfg "Failed to initiate authentication."]
              end
     end.
Proof.
  unfold authRoutes, getAuthorizationUrl, state_cookie_options.
  destruct (randomBytes aw 16) as [bytes|e]; simpl.
  - destruct (oauthClient_authorizeURL aw _) as [url|e]; simpl.
    + split; [reflexivity|]. eexists. split; reflexivity.
    + destruct e; simpl; (split; [reflexivity|]); eexists; split; reflexivity.
  - destruct e; simpl; split; reflexivity.
Qed.

(** X19: the state the entry route issues from sixteen random bytes is a
    text of thirty-two lower-case hexadecimal digits. *)
Theorem issued_state_is_32_hex_digits (bytes : list ascii) :
  randomBytes aw 16 = Normal bytes ->
  length bytes = 16 ->
  exists st options rest,
    effects (authRoutes aw cfg) = SetCookie "oauth_state" st options :: rest
    /\ String.length st = 32
    /\ Forall (fun c => In c (list_ascii_of_string "0123456789abcdef"))
              (list_ascii_of_string st).
Proof.
  intros Hr Hl. destruct (authRoutes_sets_cookie bytes Hr) as (rest & E).
  exists (to_hex bytes), (state_cookie_options cfg), rest.
  split; [exact E|]. split; [rewrite to_hex_length, Hl; reflexivity | apply to_hex_digits].
Qed.

End EntryRoute.

Lemma issued_state_is_32_hex_digits_witness :
  exists st options rest,
    effects (authRoutes Issued.auth_world Scenario.cfg)
    = SetCookie "oauth_state" st options :: rest
    /\ String.length st = 32
    /\ Forall (fun c => In c (list_ascii_of_string "0123456789abcdef"))
              (list_ascii_of_string st).
Proof.
  apply (issued_state_is_32_hex_digits Issued.auth_world Scenario.cfg Issued.sixteen_bytes);
    reflexivity.
Defined.

(** ** From the entry route to the callback *)

Section IssueThenValidate.

Variable w : World.
Variable aw : AuthWorld.
Variable cfg : Config.

(** What the cookie library writes for a signed cookie. *)
Variable sign : string -> string.

(** The library verifies what it has signed and gives the value back. *)
Hypothesis unsign_sign :
  forall v, valid (unsignCookie w (sign v)) = true
            /\ value (unsignCookie w (sign v)) = Some v.

(** X20: the state the entry route stores passes the callback's state
    check when the provider echoes it and the browser returns the signed
    cookie; with the same cookie any other state in the query is rejected. *)
Theorem issued_state_round_trip (bytes : list ascii) (request : Request) :
  randomBytes aw 16 = Normal bytes ->
  length bytes = 16 ->
  cookies_oauth_state request = Some (sign (to_hex bytes)) ->
  (exists options rest,
     effects (authRoutes aw cfg) = SetCookie "oauth_state" (to_hex bytes) options :: rest)
  /\ (state (query request) = Some (to_hex bytes) ->
      csrf_rejected (cookieState_of w request) (state (query request)) = false)
  /\ (forall other, other <> to_hex bytes -> state (query request) = Some other ->
      csrf_rejected (cookieState_of w request) (state (query request)) = true).
Proof.
  intros Hr Hl Hc.
  assert (C : cookieState_of w request = unsignCookie w (sign (to_hex bytes))).
  { unfold cookieState_of. rewrite Hc. unfold Js.or_else.
    destruct (String.eqb (sign (to_hex bytes)) "") eqn:E; [|reflexivity].
    apply String.eqb_eq in E. rewrite E. reflexivity. }
  destruct (unsign_sign (to_hex bytes)) as [V S].
  split; [|split].
  - destruct (authRoutes_sets_cookie aw cfg bytes Hr) as (rest & E). eauto.
  - intros Hq. rewrite C, Hq. unfold csrf_rejected, Js.truthy, Js.strict_neq.
    rewrite V, S, String.eqb_refl.
    destruct bytes as [|b rest]; [discriminate|]. reflexivity.
  - intros other Hne Hq. rewrite C, Hq. unfold csrf_rejected, Js.strict_neq.
    rewrite V, S. apply not_eq_sym in Hne. apply String.eqb_neq in Hne. rewrite Hne.
    simpl. apply orb_true_r.
Qed.

End IssueThenValidate.

Lemma issued_state_round_trip_witness :
  let request :=
    Scenario.request (Some (Issued.sign (to_hex Issued.sixteen_bytes))) (Some "abc123")
                     (Some (to_hex Issued.sixteen_bytes)) None None in
  csrf_rejected (cookieState_of Issued.world request) (state (query request)) = false.
Proof.
  cbv zeta.
  destruct (issued_state_round_trip Issued.world Issued.auth_world Scenario.cfg Issued.sign
              (fun v => conj eq_refl eq_refl) Issued.sixteen_bytes
              (Scenario.request (Some (Issued.sign (to_hex Issued.sixteen_bytes)))
                 (Some "abc123") (Some (to_hex Issued.sixteen_bytes)) None None)
              eq_refl eq_refl eq_refl) as (_ & H & _).
  apply H. reflexivity.
Defined.

(** ** The success page *)

Section SuccessPage.

(** X21: the page never posts the token to the wildcard origin: a message
    sent to ["*"] is the fixed "authorizing:github" notice, and the token is
    posted only to the [origin] parameter of the page, only when that is not
    ["*"], with an opener present. *)
Theorem token_never_posted_to_wildcard (win : Window) (message target : string) :
  In (message, target) (posted (success_page win)) ->
  (target = "*" /\ message = "authorizing:github")
  \/ (target <> "*"
      /\ opener win = true
      /\ page_get "origin" win = Some target
      /\ exists T, page_get "token" win = Some T /\ T <> ""
                   /\ message = success_message T).
Proof.
  unfold success_page. intros H.
  assert (P : forall a b, posted (a ++ b) = (posted a ++ posted b)%list).
  { intros a b. induction a as [|ev a IH]; [reflexivity|].
    destruct ev; simpl; rewrite IH; reflexivity. }
  rewrite P in H. apply in_app_or in H. destruct H as [H | H].
  { destruct (opener win); simpl in H; [|contradiction].
    destruct H as [H | []]. injection H as <- <-. left. auto. }
  destruct (page_get "token" win) as [T|] eqn:Ht; simpl in H; [|contradiction].
  destruct (String.eqb T "") eqn:Et; simpl in H; [contradiction|].
  destruct (String.eqb (Js.or_else (page_get "origin" win) "*") "*") eqn:Eo;
    simpl in H; [contradiction|].
  destruct (opener win) eqn:Hop; simpl in H; [|contradiction].
  destruct (accepts_target win _); simpl in H; [|contradiction].
  destruct H as [H | []]. injection H as <- <-. right.
  apply String.eqb_neq in Eo, Et.
  split; [exact Eo|]. split; [reflexivity|]. split.
  - unfold Js.or_else in *. destruct (page_get "origin" win) as [o|]; [|congruence].
    destruct (String.eqb o ""); [congruence | reflexivity].
  - exists T. auto.
Qed.




End SuccessPage.

Lemma token_never_posted_to_wildcard_witness :
  let win := window_at (success_location Scenario.cfg "gho_T0k3n") true (fun _ => true) in
  page_get "origin" win = Some "https://cms.example".
Proof.
  cbv zeta.
  destruct (token_never_posted_to_wildcard
              (window_at (success_location Scenario.cfg "gho_T0k3n") true (fun _ => true))
              (success_message "gho_T0k3n") "https://cms.example")
    as [[H _] | (_ & _ & H & _)].
  - vm_compute. right. left. reflexivity.
  - discriminate H.
  - exact H.
Defined.


